(** * Dandi back end: the diary mood and summary pipeline

    A shallow embedding of [DiariesService] (diaries.service.ts): the
    stripping of image markup, the chunked sentiment analysis
    ([sumMoodAnalysis]), the reduction to a mood degree
    ([judgeOverallMood]), the summary call ([getSummary]) and the two
    workflows that use them ([saveDiary], [updateDiary]).

    - Strings are lists of UTF-16 code units.  Their lengths and the loop
      indices are integers far below 2^53, where the arithmetic of
      JavaScript is exact; they are natural numbers.
    - The scores are JavaScript numbers, that is IEEE 754 binary64, which
      the primitive floats are.  The pipeline is written once over the
      operations it uses ([Number]) and run on binary64; what holds only of an
      addition that does not round is stated over that interface.
    - Diaries and DTOs are objects with string keys, here finite maps to
      values.
    - The service awaits one request after the other.  A computation takes
      the list of the requests sent so far and returns an outcome with the
      longer list; what the world outside answers may depend on that list. *)

From Stdlib Require Import ZArith NArith QArith List Lia Bool Floats Permutation.
From stdpp Require Import base option strings gmap.
Import ListNotations.

Local Open Scope nat_scope.

(** ** Numbers *)

(** The operations the pipeline applies to a [number]: literals and counts
    ([of_nat]), [+=], [/] and [>]. *)
Class Number (num : Type) : Type := {
  of_nat : nat -> num;
  add : num -> num -> num;
  div : num -> num -> num;
  gt : num -> num -> bool
}.

(** The numbers of the program: binary64, an integer converted with correct
    rounding. *)
#[export] Instance binary64 : Number float := {|
  of_nat n := SF2Prim (binary_normalize prec emax (Z.of_nat n) 0 false);
  add := PrimFloat.add;
  div := PrimFloat.div;
  gt x y := PrimFloat.ltb y x
|}.

(** Exact rational arithmetic, for comparison. *)
#[export] Instance exact : Number Q := {|
  of_nat n := inject_Z (Z.of_nat n);
  add := Qplus;
  div := Qdiv;
  gt x y := negb (Qle_bool x y)
|}.

(** ** Strings *)

(** A JavaScript string is a sequence of UTF-16 code units. *)
Definition jsstring : Type := list N.

(** The code units of an ASCII literal. *)
Definition utf16 (s : string) : jsstring :=
  map Ascii.N_of_ascii (String.list_ascii_of_string s).

(** [s.slice(start, end)] for [0 <= start <= end]; both are clamped to the
    length, as [skipn] and [firstn] are. *)
Definition slice (s : jsstring) (start end_ : nat) : jsstring :=
  firstn (end_ - start) (skipn start s).

(** [s.substring(0, n)]. *)
Definition substring0 (n : nat) (s : jsstring) : jsstring := firstn n s.

(** [[^>]*>]: what follows the first [>], if there is one. *)
Fixpoint after_gt (s : jsstring) : option jsstring :=
  match s with
  | [] => None
  | c :: r => if N.eqb c 62 then Some r else after_gt r
  end.

(** [<img[^>]*>] anchored at the head of [s]: what follows the match.  The
    class [[^>]] cannot take a [>], so the greedy star stops at the first one
    and no shorter match exists. *)
Definition match_img (s : jsstring) : option jsstring :=
  match s with
  | a :: b :: c :: d :: r =>
      if N.eqb a 60 && N.eqb b 105 && N.eqb c 109 && N.eqb d 103
      then after_gt r else None
  | _ => None
  end.

(** [s.replace(/<img[^>]*>/g, '')]: left to right, a match is dropped and the
    scan resumes behind it; a unit that starts no match is kept.  [fuel]
    bounds the units still to scan. *)
Fixpoint replace_img_from (fuel : nat) (s : jsstring) : jsstring :=
  match fuel, s with
  | _, [] => []
  | O, _ :: _ => []
  | S fuel', c :: r =>
      match match_img s with
      | Some rest => replace_img_from fuel' rest
      | None => c :: replace_img_from fuel' r
      end
  end.

Definition replace_img (s : jsstring) : jsstring :=
  replace_img_from (length s) s.

(** ** Mood types and degrees *)

(** Modelled from the spec: [MoodType] of utils/diaries.constant, which is
    not in src.  The spec has a closed set of three sentiment categories,
    POSITIVE, NEGATIVE and NEUTRAL; they are the keys of [moodStatistics] and
    the labels of the [switch], so three distinct strings. *)
Inductive MoodType : Type := POSITIVE | NEGATIVE | NEUTRAL.

(** Modelled from the spec: [MoodDegree] of utils/diaries.constant, which is
    not in src.  The spec has five ordered values. *)
Inductive MoodDegree : Type := SO_BAD | BAD | SO_SO | GOOD | SO_GOOD.

(** ** Exceptions *)

Inductive Error : Type :=
  | NetworkError   (* fetch rejects *)
  | SyntaxError    (* response.json() rejects: the body is not JSON *)
  | TypeError      (* a member of undefined or null, a method that is missing *)
  | BadRequestException
  | ForbiddenException.

Inductive Outcome (A : Type) : Type :=
  | Ok (a : A)
  | Throw (e : Error).
Arguments Ok {A} a.
Arguments Throw {A} e.

(** ** Scores and their classification *)

Section Mood.
Context {num : Type} `{Number num}.

(** A [Record<string, number>] over the three keys of [MoodType]: the
    running [moodStatistics], and the [confidence] object of one analysis,
    which by the contract of the sentiment service carries the three
    categories and nothing else. *)
Record Scores : Type := mkScores {
  positive : num;
  negative : num;
  neutral : num
}.

Definition score (s : Scores) (t : MoodType) : num :=
  match t with
  | POSITIVE => positive s
  | NEGATIVE => negative s
  | NEUTRAL => neutral s
  end.

(** The object literal of [sumMoodAnalysis]: every key at 0. *)
Definition moodStatistics0 : Scores :=
  mkScores (of_nat 0) (of_nat 0) (of_nat 0).

(** [Object.keys(analysis).forEach(key => moodStatistics[key] += analysis[key])]. *)
Definition accumulate (moodStatistics analysis : Scores) : Scores :=
  mkScores (add (positive moodStatistics) (positive analysis))
           (add (negative moodStatistics) (negative analysis))
           (add (neutral moodStatistics) (neutral analysis)).

(** The statistics after the analyses [l], taken in order. *)
Definition aggregate (l : list Scores) : Scores :=
  fold_left accumulate l moodStatistics0.

(** [Object.entries(statistics)]: the keys in the order the literal
    inserted them. *)
Definition entries (statistics : Scores) : list (MoodType * num) :=
  [(POSITIVE, positive statistics);
   (NEGATIVE, negative statistics);
   (NEUTRAL, neutral statistics)].

(** [Array.prototype.reduce] with no initial value: the first element
    starts the fold, and an empty array is a TypeError. *)
Definition reduce {A : Type} (f : A -> A -> A) (l : list A) : Outcome A :=
  match l with
  | [] => Throw TypeError
  | x :: xs => Ok (fold_left f xs x)
  end.

(** [(max, cur) => cur[1] > max[1] ? cur : max]. *)
Definition larger (max cur : MoodType * num) : MoodType * num :=
  if gt (snd cur) (snd max) then cur else max.

(** The part of [judgeOverallMood] behind the [await]: the entry with the
    largest sum, its sum over [totalNumber] and the [switch]. *)
Definition classify (statistics : Scores) (totalNumber : nat)
  : Outcome MoodDegree :=
  match reduce larger (entries statistics) with
  | Throw e => Throw e
  | Ok (type, sum) =>
      let figure := div sum (of_nat totalNumber) in
      match type with
      | POSITIVE => if gt figure (of_nat 50) then Ok SO_GOOD else Ok GOOD
      | NEGATIVE => if gt figure (of_nat 50) then Ok SO_BAD else Ok BAD
      | NEUTRAL => Ok SO_SO
      end
  end.
End Mood.

Arguments Scores num : clear implicits.

(** ** Values, objects and the world outside *)

(** A JavaScript value, as far as the service meets one: what JSON carries,
    and [undefined]. *)
#[warnings="-register-all"]
Inductive jsvalue : Type :=
  | VUndefined
  | VNull
  | VBool (b : bool)
  | VNumber (x : float)
  | VString (s : jsstring)
  | VArray (items : list jsvalue)
  | VObject (members : gmap string jsvalue).

(** ToBoolean: [undefined], [null], [false], [0], [-0], [NaN] and the empty
    string are falsy. *)
Definition truthy (v : jsvalue) : bool :=
  match v with
  | VUndefined | VNull => false
  | VBool b => b
  | VNumber x => negb (PrimFloat.eqb x 0) && PrimFloat.eqb x x
  | VString s => negb (Nat.eqb (length s) 0)
  | VArray _ | VObject _ => true
  end.

(** [o[key]] on an object: a missing key reads [undefined]. *)
Definition get (o : gmap string jsvalue) (key : string) : jsvalue :=
  default VUndefined (o !! key).

(** [v.key] for a key that is no built-in property: a TypeError on
    [undefined] and [null], [undefined] on the other values without it. *)
Definition member (v : jsvalue) (key : string) : Outcome jsvalue :=
  match v with
  | VUndefined | VNull => Throw TypeError
  | VObject o => Ok (get o key)
  | _ => Ok VUndefined
  end.

(** [a === b] on primitive values.  Objects and arrays are equal only to
    themselves; two of them met apart are taken to be different. *)
Definition strict_equal (a b : jsvalue) : bool :=
  match a, b with
  | VUndefined, VUndefined | VNull, VNull => true
  | VBool x, VBool y => Bool.eqb x y
  | VNumber x, VNumber y => PrimFloat.eqb x y
  | VString x, VString y => bool_decide (x = y)
  | _, _ => false
  end.

(** The receiver of a string method ([replace], [substring]): only a string
    has one. *)
Definition as_string (v : jsvalue) : Outcome jsstring :=
  match v with
  | VString s => Ok s
  | _ => Throw TypeError
  end.

(** What [fetch] resolves to: the status, and the body when it parses as
    JSON. *)
Record Response : Type := mkResponse {
  status : nat;
  body : option jsvalue
}.

(** [response.json()]. *)
Definition json (response : Response) : Outcome jsvalue :=
  match body response with
  | Some v => Ok v
  | None => Throw SyntaxError
  end.

(** The requests the service sends out, in the order it sends them. *)
Inductive Event : Type :=
  | FindById (id : Z)
  | MapTagNameToTagType (tagNames : jsvalue)
  | Summarize (title : jsvalue) (content : jsstring)
  | AnalyzeMood (content : jsstring)
  | Save (diary : gmap string jsvalue).

Definition World : Type := list Event.

(** A computation of the service: it may read what was sent so far, send
    more, and return or throw. *)
Definition IO (A : Type) : Type := World -> Outcome A * World.

Definition ret {A : Type} (a : A) : IO A := fun w => (Ok a, w).

Definition lift {A : Type} (o : Outcome A) : IO A := fun w => (o, w).

Definition throw {A : Type} (e : Error) : IO A := lift (Throw e).

Definition bind {A B : Type} (m : IO A) (k : A -> IO B) : IO B :=
  fun w =>
    match m w with
    | (Ok a, w') => k a w'
    | (Throw e, w') => (Throw e, w')
    end.

(** An awaited request: the answer may depend on everything sent before. *)
Definition call {A : Type} (e : Event) (answer : World -> Outcome A) : IO A :=
  fun w => (answer w, w ++ [e]).

Declare Scope io_scope.
Delimit Scope io_scope with io.
Notation "x <- m ;; k" := (bind m (fun x => k))
  (at level 100, m at next level, right associativity) : io_scope.

Section Service.
Context {num : Type} `{Number num}.

(** Collaborators and constants of the application that [DiariesService]
    is handed: the CLOVA endpoints, the injected services and repository, and
    the enum values of utils/diaries.constant. *)
Record Env : Type := mkEnv {
  (** [analyzeMood]'s exchange: the POST to CLOVA_SENTIMENT_URL and
      [jsonResponse.document.confidence], typed [Record<string, number>];
      a rejection anywhere in it is the error. *)
  clova_sentiment : World -> jsstring -> Outcome (Scores num);
  (** The POST to the summarize endpoint; [None] when [fetch] rejects. *)
  clova_summary : World -> jsvalue -> jsstring -> option Response;
  tagsService_mapTagNameToTagType : World -> jsvalue -> Outcome jsvalue;
  (** [None] when no diary has the id. *)
  diariesRepository_findById :
    World -> Z -> Outcome (option (gmap string jsvalue));
  diariesRepository_save :
    World -> gmap string jsvalue -> Outcome (gmap string jsvalue);
  moodDegree_value : MoodDegree -> jsvalue;
  diaryStatus_PRIVATE : jsvalue
}.

Variable env : Env.

Local Open Scope io_scope.

Definition analyzeMood (content : jsstring) : IO (Scores num) :=
  call (AnalyzeMood content) (fun w => clova_sentiment env w content).

(** The [for] loop of [sumMoodAnalysis] from index [i] on, with [k]
    iterations to go before [i < numberOfChunk] fails. *)
Fixpoint sumMoodAnalysis_loop (plainContent : jsstring) (numberOfChunk : nat)
    (k i : nat) (moodStatistics : Scores num) : IO (Scores num) :=
  match k with
  | O => ret moodStatistics
  | S k' =>
      let start := i * 1000 in
      let end_ :=
        if i <? numberOfChunk - 1 then start + 1000
        else start + length plainContent mod 1000 in
      if start =? end_ then ret moodStatistics
      else
        analysis <- analyzeMood (slice plainContent start end_) ;;
        sumMoodAnalysis_loop plainContent numberOfChunk k' (i + 1)
          (accumulate moodStatistics analysis)
  end.

Definition sumMoodAnalysis (fullContent : jsvalue) : IO (Scores num * nat) :=
  fullContent <- lift (as_string fullContent) ;;
  let plainContent := replace_img fullContent in
  let numberOfChunk := length plainContent / 1000 + 1 in
  moodStatistics <-
    sumMoodAnalysis_loop plainContent numberOfChunk numberOfChunk 0
      moodStatistics0 ;;
  ret (moodStatistics, numberOfChunk).

Definition judgeOverallMood (fullContent : jsvalue) : IO MoodDegree :=
  r <- sumMoodAnalysis fullContent ;;
  let '(statistics, totalNumber) := r in
  lift (classify statistics totalNumber).

Definition getSummary (title content : jsvalue) : IO jsvalue :=
  content <- lift (as_string content) ;;
  let content := substring0 2000 content in
  response <-
    call (Summarize title content)
      (fun w =>
         match clova_summary env w title content with
         | Some response => Ok response
         | None => Throw NetworkError
         end) ;;
  body <- lift (json response) ;;
  lift (member body "summary").

(** [plainToClass(Diary, dto, { excludePrefixes: ['tag'] })]: the
    properties whose name does not start with [tag]. *)
Definition plainToClass (dto : gmap string jsvalue) : gmap string jsvalue :=
  filter (fun kv => String.prefix "tag" (fst kv) = false) dto.

Definition saveDiary (user : jsvalue) (createDiaryDto : gmap string jsvalue)
  : IO unit :=
  tags <-
    call (MapTagNameToTagType (get createDiaryDto "tagNames"))
      (fun w =>
         tagsService_mapTagNameToTagType env w (get createDiaryDto "tagNames")) ;;
  let diary := plainToClass createDiaryDto in
  let diary := <["author" := user]> diary in
  let diary := <["tags" := tags]> diary in
  summary <- getSummary (get diary "title") (get diary "content") ;;
  let diary := <["summary" := summary]> diary in
  mood <- judgeOverallMood (get diary "content") ;;
  let diary := <["mood" := moodDegree_value env mood]> diary in
  _ <- call (Save diary) (fun w => diariesRepository_save env w diary) ;;
  ret tt.

Definition existsDiary (diary : option (gmap string jsvalue))
  : IO (gmap string jsvalue) :=
  match diary with
  | None => throw BadRequestException
  | Some diary => ret diary
  end.

(** [&&] and [||] take their right operand only when the left one does not
    decide: [author.id] and [user.id] are read after the first test. *)
Definition checkAuthorization (author user status : jsvalue) (readMode : bool)
  : IO unit :=
  if negb readMode || strict_equal status (diaryStatus_PRIVATE env) then
    author_id <- lift (member author "id") ;;
    user_id <- lift (member user "id") ;;
    if negb (strict_equal author_id user_id) then throw ForbiddenException
    else ret tt
  else ret tt.

Definition findDiary (user : jsvalue) (id : Z) (readMode : bool)
  : IO (gmap string jsvalue) :=
  diary <-
    call (FindById id) (fun w => diariesRepository_findById env w id) ;;
  diary <- existsDiary diary ;;
  let author := get diary "author" in
  _ <- checkAuthorization author user (get diary "status") readMode ;;
  ret diary.

(** [Object.keys(dto).forEach(key => { if (dto[key]) existing[key] = dto[key] })]:
    the assignments go to different keys, so their order is immaterial. *)
Definition assign_truthy (existingDiary updateDiaryDto : gmap string jsvalue)
  : gmap string jsvalue :=
  map_fold
    (fun key v existing => if truthy v then <[key := v]> existing else existing)
    existingDiary updateDiaryDto.

Definition updateDiary (id : Z) (user : jsvalue)
    (updateDiaryDto : gmap string jsvalue) : IO (gmap string jsvalue) :=
  existingDiary <- findDiary user id false ;;
  tags <-
    call (MapTagNameToTagType (get updateDiaryDto "tagNames"))
      (fun w =>
         tagsService_mapTagNameToTagType env w (get updateDiaryDto "tagNames")) ;;
  let existingDiary := <["tags" := tags]> existingDiary in
  let existingDiary := assign_truthy existingDiary updateDiaryDto in
  existingDiary <-
    (if truthy (get updateDiaryDto "content") then
       summary <-
         getSummary (get existingDiary "title") (get updateDiaryDto "content") ;;
       let existingDiary := <["summary" := summary]> existingDiary in
       mood <- judgeOverallMood (get updateDiaryDto "content") ;;
       ret (<["mood" := moodDegree_value env mood]> existingDiary)
     else ret existingDiary) ;;
  call (Save existingDiary) (fun w => diariesRepository_save env w existingDiary).
End Service.

Arguments Env num : clear implicits.

(** ** The chunks and the analyses of one run *)

(** The slices the loop of [sumMoodAnalysis] sends for analysis, in order:
    the loop without its calls. *)
Fixpoint chunks_loop (plainContent : jsstring) (numberOfChunk k i : nat)
  : list jsstring :=
  match k with
  | O => []
  | S k' =>
      let start := i * 1000 in
      let end_ :=
        if i <? numberOfChunk - 1 then start + 1000
        else start + length plainContent mod 1000 in
      if start =? end_ then []
      else slice plainContent start end_
             :: chunks_loop plainContent numberOfChunk k' (i + 1)
  end.

Definition chunks (plainContent : jsstring) : list jsstring :=
  let numberOfChunk := length plainContent / 1000 + 1 in
  chunks_loop plainContent numberOfChunk numberOfChunk 0.

(** The analyses a service that answers [reply] returns when the chunks [cs]
    are sent one after the other, starting in the world [w]. *)
Fixpoint analyses {num : Type} (reply : World -> jsstring -> Scores num)
    (w : World) (cs : list jsstring) : list (Scores num) :=
  match cs with
  | [] => []
  | c :: cs' => reply w c :: analyses reply (w ++ [AnalyzeMood c]) cs'
  end.

(** The position of a key in [entries]. *)
Definition rank (t : MoodType) : nat :=
  match t with
  | POSITIVE => 0
  | NEGATIVE => 1
  | NEUTRAL => 2
  end.

(** [t] is the first of the keys, in the order of [entries], to hold the
    largest sum: no sum is above it and every sum before it is below it. *)
Definition first_maximal (statistics : Scores float) (t : MoodType) : Prop :=
  (forall t', PrimFloat.leb (score statistics t') (score statistics t) = true) /\
  (forall t', rank t' < rank t ->
              PrimFloat.ltb (score statistics t') (score statistics t) = true).

(** ** Services and diaries for the examples *)

(** The stored value of an enum member. *)
Definition moodDegree_name (d : MoodDegree) : jsvalue :=
  VString (utf16 match d with
                 | SO_BAD => "so_bad"
                 | BAD => "bad"
                 | SO_SO => "so_so"
                 | GOOD => "good"
                 | SO_GOOD => "so_good"
                 end).

(** A world outside that answers every analysis with [analysis] and every
    summary request with [response], maps tag names to themselves, finds the
    diary [existing] and saves what it is given. *)
Definition stub {num : Type} (analysis : Scores num) (response : option Response)
    (existing : gmap string jsvalue) : Env num :=
  mkEnv (fun _ _ => Ok analysis)
        (fun _ _ _ => response)
        (fun _ tagNames => Ok tagNames)
        (fun _ _ => Ok (Some existing))
        (fun _ diary => Ok diary)
        moodDegree_name
        (VString (utf16 "private")).

(** An analysis that is sure of a positive mood. *)
Definition all_positive : Scores float := mkScores 100%float 0%float 0%float.

(** A summary response in good order. *)
Definition summary_ok : Response :=
  mkResponse 200 (Some (VObject {[ "summary" := VString (utf16 "a day out") ]})).

(** A diary body that is one image and nothing else. *)
Definition img_only : jsstring := utf16 "<img src='a.png'>".

(** A short diary body with an image in it. *)
Definition short_body : jsstring := utf16 "sunny <img src='a.png'>day".

(** Three sums that tie. *)
Definition three_way_tie : Scores float := mkScores 10%float 10%float 10%float.



(** The answer of the summarize endpoint when it fails: a status that is no
    success and a JSON body that describes the error. *)
Definition summary_error : Response :=
  mkResponse 500
    (Some (VObject {[ "error" :=
       VObject {[ "message" := VString (utf16 "Internal Server Error") ]} ]})).

Definition author : jsvalue := VObject {[ "id" := VNumber 7%float ]}.

Definition create_dto : gmap string jsvalue :=
  {[ "title" := VString (utf16 "picnic");
     "content" := VString short_body;
     "tagNames" := VArray [VString (utf16 "park")] ]}.

(** A stored diary, and an update that renames it and carries no content. *)
Definition stored_diary : gmap string jsvalue :=
  {[ "author" := author;
     "status" := VString (utf16 "private");
     "title" := VString (utf16 "picnic");
     "content" := VString short_body;
     "summary" := VString (utf16 "a day out");
     "mood" := moodDegree_name SO_GOOD;
     "tags" := VArray [VString (utf16 "park")] ]}.

Definition rename_dto : gmap string jsvalue :=
  {[ "title" := VString (utf16 "a picnic in the park");
     "thumbnail" := VString [];
     "tagNames" := VArray [VString (utf16 "park")] ]}.

(** A sentiment service that is down for the second request it receives. *)
Definition second_analysis_fails : Env float :=
  mkEnv (fun w _ =>
           if length w =? 1 then Throw NetworkError
           else Ok (mkScores 30%float 0%float 0%float))
        (fun _ _ _ => Some summary_ok)
        (fun _ tagNames => Ok tagNames)
        (fun _ _ => Ok None)
        (fun _ diary => Ok diary)
        moodDegree_name
        (VString (utf16 "private")).

(** * Properties *)

(** ** Stripping the image markup *)

Lemma after_gt_length (s rest : jsstring) :
  after_gt s = Some rest -> length rest < length s.
Proof.
  induction s as [|c r IH]; simpl; [discriminate|].
  destruct (N.eqb c 62).
  - intros [= ->]. lia.
  - intros E. apply IH in E. lia.
Qed.

Lemma match_img_length (s rest : jsstring) :
  match_img s = Some rest -> length rest < length s.
Proof.
  destruct s as [|a [|b [|c [|d r]]]]; simpl; try discriminate.
  destruct (_ && _); [|discriminate].
  intros E. apply after_gt_length in E. lia.
Qed.

(** The fuel of [replace_img] is enough: more of it changes nothing. *)
Lemma replace_img_from_enough (fuel : nat) (s : jsstring) :
  length s <= fuel -> replace_img_from fuel s = replace_img s.
Proof.
  unfold replace_img. remember (length s) as n eqn:En.
  revert s En fuel.
  induction n as [n IH] using lt_wf_ind. intros s En fuel Hfuel.
  destruct s as [|c r]; [now destruct fuel, n|].
  destruct fuel as [|fuel]; [simpl in *; lia|].
  destruct n as [|n]; [discriminate|].
  cbn [replace_img_from]. simpl in En, Hfuel.
  destruct (match_img (c :: r)) as [rest|] eqn:E.
  - apply match_img_length in E. simpl in E.
    rewrite (IH (length rest)) by lia.
    symmetry. now rewrite (IH (length rest)) by lia.
  - f_equal. rewrite (IH (length r)) by lia.
    symmetry. now rewrite (IH (length r)) by lia.
Qed.

(** The scan of [replace_img], one step at a time. *)
Lemma replace_img_cons (c : N) (r : jsstring) :
  replace_img (c :: r) =
  match match_img (c :: r) with
  | Some rest => replace_img rest
  | None => c :: replace_img r
  end.
Proof.
  unfold replace_img at 1. cbn [length replace_img_from].
  destruct (match_img (c :: r)) as [rest|] eqn:E.
  - apply replace_img_from_enough. apply match_img_length in E. simpl in E. lia.
  - reflexivity.
Qed.

Example replace_img_drops_tags :
  replace_img (utf16 "ab<img src='x'>cd<img<img>>e<img") = utf16 "abcd>e<img".
Proof. reflexivity. Qed.

(** ** The loop of sumMoodAnalysis *)

Section Answered.
Context {num : Type} `{Number num}.
Variable env : Env num.
Variable reply : World -> jsstring -> Scores num.
Hypothesis answered : forall w c, clova_sentiment env w c = Ok (reply w c).

(** When every analysis is answered the loop sends exactly the chunks of
    [chunks_loop] and adds up the answers in that order. *)
Lemma sumMoodAnalysis_loop_answered (plain : jsstring) (total k i : nat)
    (stats : Scores num) (w : World) :
  sumMoodAnalysis_loop env plain total k i stats w =
  (Ok (fold_left accumulate (analyses reply w (chunks_loop plain total k i))
         stats),
   w ++ map AnalyzeMood (chunks_loop plain total k i)).
Proof.
  revert i stats w. induction k as [|k IH]; intros i stats w; simpl.
  - unfold ret. now rewrite app_nil_r.
  - destruct (i * 1000 =? _) eqn:E.
    + unfold ret; simpl. now rewrite app_nil_r.
    + unfold bind, analyzeMood, call. rewrite answered, IH. simpl.
      now rewrite <- app_assoc.
Qed.

Lemma sumMoodAnalysis_answered (T : jsstring) (w : World) :
  sumMoodAnalysis env (VString T) w =
  (Ok (aggregate (analyses reply w (chunks (replace_img T))),
       length (replace_img T) / 1000 + 1),
   w ++ map AnalyzeMood (chunks (replace_img T))).
Proof.
  unfold sumMoodAnalysis, bind, lift, as_string.
  now rewrite sumMoodAnalysis_loop_answered.
Qed.
End Answered.

(** ** The chunks *)

Lemma chunks_loop_spec (plain : jsstring) (k i : nat) :
  i + k = length plain / 1000 + 1 ->
  concat (chunks_loop plain (length plain / 1000 + 1) k i) = skipn (i * 1000) plain /\
  Forall (fun c => 1 <= length c <= 1000)
         (chunks_loop plain (length plain / 1000 + 1) k i) /\
  length (chunks_loop plain (length plain / 1000 + 1) k i) =
    k - (if length plain mod 1000 =? 0 then 1 else 0).
Proof.
  pose proof (Nat.div_mod_eq (length plain) 1000) as Hdm.
  pose proof (Nat.mod_upper_bound (length plain) 1000 ltac:(lia)) as Hm.
  remember (length plain / 1000) as q eqn:Eq.
  remember (length plain mod 1000) as m eqn:Em.
  revert i. induction k as [|k IH]; intros i Hi; cbn [chunks_loop].
  - split; [|split]; [|constructor|reflexivity].
    simpl. symmetry. apply drop_ge. lia.
  - rewrite <- Em.
    destruct (i <? q + 1 - 1) eqn:Elt.
    + apply Nat.ltb_lt in Elt.
      destruct (i * 1000 =? i * 1000 + 1000) eqn:E; [apply Nat.eqb_eq in E; lia|].
      destruct (IH (i + 1) ltac:(lia)) as (Hc & Hf & Hl).
      unfold slice. replace (i * 1000 + 1000 - i * 1000) with 1000 by lia.
      split; [|split].
      * cbn [concat]. rewrite Hc.
        replace ((i + 1) * 1000) with (i * 1000 + 1000) by lia.
        rewrite <- drop_drop. apply take_drop.
      * constructor; [|exact Hf].
        rewrite length_take, length_drop. lia.
      * cbn [length]. rewrite Hl. destruct (m =? 0); lia.
    + apply Nat.ltb_ge in Elt. assert (i = q) as -> by lia.
      assert (k = 0) as -> by lia.
      destruct (q * 1000 =? q * 1000 + m) eqn:E.
      * apply Nat.eqb_eq in E. assert (m = 0) as -> by lia.
        split; [|split]; [|constructor|reflexivity].
        simpl. symmetry. apply drop_ge. lia.
      * apply Nat.eqb_neq in E. assert (m <> 0) by lia.
        unfold slice. replace (q * 1000 + m - q * 1000) with m by lia.
        cbn [chunks_loop concat length].
        rewrite app_nil_r.
        assert (length (drop (q * 1000) plain) = m) as Hlen
          by (rewrite length_drop; lia).
        split; [|split].
        -- apply take_ge. lia.
        -- constructor; [|constructor]. rewrite length_take. lia.
        -- destruct (m =? 0) eqn:E0; [apply Nat.eqb_eq in E0; lia|lia].
Qed.

Lemma ceiling_1000 (n : nat) :
  (n + 999) / 1000 = n / 1000 + 1 - (if n mod 1000 =? 0 then 1 else 0).
Proof.
  pose proof (Nat.div_mod_eq n 1000).
  pose proof (Nat.mod_upper_bound n 1000 ltac:(lia)).
  pose proof (Nat.div_mod_eq (n + 999) 1000).
  pose proof (Nat.mod_upper_bound (n + 999) 1000 ltac:(lia)).
  destruct (Nat.eqb_spec (n mod 1000) 0); lia.
Qed.

Lemma chunks_length (plain : jsstring) :
  length (chunks plain) = (length plain + 999) / 1000.
Proof.
  destruct (chunks_loop_spec plain (length plain / 1000 + 1) 0 ltac:(lia))
    as (_ & _ & Hl).
  unfold chunks. rewrite Hl. symmetry. apply ceiling_1000.
Qed.

Lemma chunks_concat (plain : jsstring) : concat (chunks plain) = plain.
Proof.
  destruct (chunks_loop_spec plain (length plain / 1000 + 1) 0 ltac:(lia))
    as (Hc & _ & _).
  exact Hc.
Qed.

Lemma chunks_bounds (plain : jsstring) :
  Forall (fun c => 1 <= length c <= 1000) (chunks plain).
Proof.
  destruct (chunks_loop_spec plain (length plain / 1000 + 1) 0 ltac:(lia))
    as (_ & Hf & _).
  exact Hf.
Qed.

(** ** The number of chunks and the denominator *)

(** C5: with [n] the length of the stripped text, and every analysis
    answered, [sumMoodAnalysis] returns after sending ceil(n / 1000) chunks
    for analysis: n / 1000 + 1 of them when 1000 does not divide [n],
    n / 1000 when it does and [n] is positive, none when [n] is 0. *)
Theorem sumMoodAnalysis_chunk_count {num : Type} `{Number num}
    (env : Env num) (reply : World -> jsstring -> Scores num)
    (T : jsstring) (w : World) :
  (forall w' c, clova_sentiment env w' c = Ok (reply w' c)) ->
  let n := length (replace_img T) in
  exists statistics sent,
    sumMoodAnalysis env (VString T) w
      = (Ok (statistics, n / 1000 + 1), w ++ map AnalyzeMood sent) /\
    length sent = (n + 999) / 1000 /\
    (n mod 1000 <> 0 -> length sent = n / 1000 + 1) /\
    (n mod 1000 = 0 -> 0 < n -> length sent = n / 1000) /\
    (n = 0 -> length sent = 0).
Proof.
  intros answered n.
  exists (aggregate (analyses reply w (chunks (replace_img T)))),
         (chunks (replace_img T)).
  split; [now apply sumMoodAnalysis_answered|].
  rewrite chunks_length. fold n. rewrite ceiling_1000.
  repeat split.
  - intros Hm. destruct (Nat.eqb_spec (n mod 1000) 0); lia.
  - intros Hm _. rewrite Hm. simpl. lia.
  - intros ->. reflexivity.
Qed.

Lemma sumMoodAnalysis_chunk_count_witness :
  exists statistics sent,
    sumMoodAnalysis (stub all_positive (Some summary_ok) ∅) (VString short_body) []
      = (Ok (statistics, 1), [] ++ map AnalyzeMood sent) /\
    length sent = 1.
Proof.
  destruct (sumMoodAnalysis_chunk_count
              (stub all_positive (Some summary_ok) ∅) (fun _ _ => all_positive)
              short_body [] (fun _ _ => eq_refl))
    as (statistics & sent & Hrun & Hlen & _).
  exists statistics, sent. split; [exact Hrun | exact Hlen].
Defined.

(** C6: with every analysis answered, the chunks [sumMoodAnalysis] sends,
    joined in the order sent, are the text stripped of its image markup; each
    has at least 1 and at most 1000 code units. *)
Theorem sumMoodAnalysis_chunks_concat {num : Type} `{Number num}
    (env : Env num) (reply : World -> jsstring -> Scores num)
    (T : jsstring) (w : World) :
  (forall w' c, clova_sentiment env w' c = Ok (reply w' c)) ->
  exists statistics totalNumber sent,
    sumMoodAnalysis env (VString T) w
      = (Ok (statistics, totalNumber), w ++ map AnalyzeMood sent) /\
    concat sent = replace_img T /\
    Forall (fun c => 1 <= length c <= 1000) sent.
Proof.
  intros answered.
  exists (aggregate (analyses reply w (chunks (replace_img T)))),
         (length (replace_img T) / 1000 + 1),
         (chunks (replace_img T)).
  split; [now apply sumMoodAnalysis_answered|].
  split; [apply chunks_concat | apply chunks_bounds].
Qed.

Lemma sumMoodAnalysis_chunks_concat_witness :
  exists statistics totalNumber sent,
    sumMoodAnalysis (stub all_positive (Some summary_ok) ∅) (VString short_body) []
      = (Ok (statistics, totalNumber), [] ++ map AnalyzeMood sent) /\
    concat sent = utf16 "sunny day" /\
    Forall (fun c => 1 <= length c <= 1000) sent.
Proof.
  exact (sumMoodAnalysis_chunks_concat
           (stub all_positive (Some summary_ok) ∅) (fun _ _ => all_positive)
           short_body [] (fun _ _ => eq_refl)).
Defined.


(** When 1000 divides the length of the stripped text the denominator is one
    more than the number of chunks analysed. *)
Lemma sumMoodAnalysis_multiple_of_1000 {num : Type} `{Number num}
    (env : Env num) (reply : World -> jsstring -> Scores num)
    (T : jsstring) (w : World) :
  (forall w' c, clova_sentiment env w' c = Ok (reply w' c)) ->
  length (replace_img T) mod 1000 = 0 ->
  exists statistics sent,
    sumMoodAnalysis env (VString T) w
      = (Ok (statistics, length sent + 1), w ++ map AnalyzeMood sent).
Proof.
  intros answered Hm.
  exists (aggregate (analyses reply w (chunks (replace_img T)))),
         (chunks (replace_img T)).
  rewrite (sumMoodAnalysis_answered env reply answered).
  rewrite chunks_length, ceiling_1000, Hm. simpl.
  now rewrite Nat.add_sub.
Qed.

(** Three chunks of a text of 2500 code units, each found positive with
    confidence 30: the sums are 90, 0 and 0, the denominator is 3 and the
    mood is GOOD. *)
Example judgeOverallMood_2500_units :
  sumMoodAnalysis (stub (mkScores 30%float 0%float 0%float) (Some summary_ok) ∅)
                  (VString (repeat 97%N 2500)) []
    = (Ok (mkScores 90%float 0%float 0%float, 3),
       [AnalyzeMood (repeat 97%N 1000);
        AnalyzeMood (repeat 97%N 1000);
        AnalyzeMood (repeat 97%N 500)]) /\
  fst (judgeOverallMood
         (stub (mkScores 30%float 0%float 0%float) (Some summary_ok) ∅)
         (VString (repeat 97%N 2500)) []) = Ok GOOD.
Proof. split; vm_compute; reflexivity. Qed.

(** The second of three analyses fails: the error is what
    [judgeOverallMood] throws, and the third chunk is never sent. *)
Example judgeOverallMood_second_analysis_fails :
  judgeOverallMood second_analysis_fails (VString (repeat 97%N 2500)) []
    = (Throw NetworkError,
       [AnalyzeMood (repeat 97%N 1000); AnalyzeMood (repeat 97%N 1000)]).
Proof. vm_compute; reflexivity. Qed.

(** ** Content without text *)

(** C1, as the program has it: when the text stripped of its image markup is
    empty, [judgeOverallMood] sends nothing for analysis, divides the sum 0
    by the denominator 1 and, POSITIVE being the first key, returns GOOD; it
    does not throw. *)
Theorem judgeOverallMood_empty_content (env : Env float) (T : jsstring)
    (w : World) :
  replace_img T = [] ->
  judgeOverallMood env (VString T) w = (Ok GOOD, w).
Proof.
  intros Hplain.
  unfold judgeOverallMood, sumMoodAnalysis, bind, lift, as_string.
  rewrite Hplain. reflexivity.
Qed.

Lemma judgeOverallMood_empty_content_witness :
  replace_img img_only = [] /\
  judgeOverallMood (stub all_positive (Some summary_ok) ∅) (VString img_only) []
    = (Ok GOOD, []).
Proof.
  split; [reflexivity|].
  apply (judgeOverallMood_empty_content
           (stub all_positive (Some summary_ok) ∅) img_only []).
  reflexivity.
Defined.

(** C1, as stated, fails: a diary body that is one image strips to the empty
    text; no chunk is analysed, the denominator is 1, and the mood is GOOD,
    not SO_SO.  (With the denominator 0 the ratio would be NaN, which is not
    above 50 either: GOOD again.) *)
Lemma empty_content_is_not_SO_SO :
  replace_img img_only = [] /\
  sumMoodAnalysis (stub all_positive (Some summary_ok) ∅) (VString img_only) []
    = (Ok (mkScores 0%float 0%float 0%float, 1), []) /\
  judgeOverallMood (stub all_positive (Some summary_ok) ∅) (VString img_only) []
    = (Ok GOOD, []) /\
  classify (mkScores 0%float 0%float 0%float) 0 = Ok GOOD /\
  GOOD <> SO_SO.
Proof.
  repeat split; try reflexivity. discriminate.
Qed.

(** ** A text of exactly 1000 code units *)

(** C2 at a text of 1000 code units: one chunk is sent for analysis, and the
    denominator returned is 2.  A diary every chunk of which is found
    positive with confidence 100 is SO_GOOD at 999 and at 1001 code units and
    GOOD at 1000, where the one sum of 100 is divided by 2. *)
Lemma thousand_units_divided_by_two :
  sumMoodAnalysis (stub all_positive (Some summary_ok) ∅)
                  (VString (repeat 97%N 1000)) []
    = (Ok (all_positive, 2), [AnalyzeMood (repeat 97%N 1000)]) /\
  fst (judgeOverallMood (stub all_positive (Some summary_ok) ∅)
                        (VString (repeat 97%N 1000)) []) = Ok GOOD /\
  fst (judgeOverallMood (stub all_positive (Some summary_ok) ∅)
                        (VString (repeat 97%N 999)) []) = Ok SO_GOOD /\
  fst (judgeOverallMood (stub all_positive (Some summary_ok) ∅)
                        (VString (repeat 97%N 1001)) []) = Ok SO_GOOD.
Proof.
  repeat split; vm_compute; reflexivity.
Qed.

(** ** The order of binary64 *)

Lemma SFcompare_antisym (x y : spec_float) (c : comparison) :
  SFcompare x y = Some c -> SFcompare y x = Some (CompOpp c).
Proof.
  destruct x as [sx | sx | | sx mx ex], y as [sy | sy | | sy my ey];
    unfold SFcompare; try discriminate;
    repeat match goal with b : bool |- _ => destruct b end;
    try (intros [= <-]; reflexivity).
  all: change (IntDef.Z.compare ey ex) with (Z.compare ey ex);
    change (PosDef.Pos.compare_cont Eq my mx) with (Pos.compare my mx);
    rewrite (Z.compare_antisym ex ey), (Pos.compare_antisym mx my);
    change (Z.compare ex ey) with (IntDef.Z.compare ex ey);
    change (Pos.compare mx my) with (PosDef.Pos.compare_cont Eq mx my);
    destruct (IntDef.Z.compare ex ey); simpl; intros [= <-];
    try reflexivity; destruct (PosDef.Pos.compare_cont Eq mx my); reflexivity.
Qed.

(** [x <= y] excludes [x > y] (either fails when one of them is NaN). *)
Lemma leb_not_gt (x y : float) :
  PrimFloat.leb x y = true -> gt x y = false.
Proof.
  unfold gt, binary64. rewrite leb_spec, ltb_spec. unfold SFleb, SFltb.
  destruct (SFcompare (Prim2SF x) (Prim2SF y)) as [c|] eqn:E; [|discriminate].
  rewrite (SFcompare_antisym _ _ _ E). destruct c; simpl; congruence.
Qed.

Lemma gt_binary64 (x y : float) : gt x y = PrimFloat.ltb y x.
Proof. reflexivity. Qed.

(** ** The classification *)

(** C3: with the winning key and its sum as the reduction over the entries
    gives them, and the ratio that sum over the denominator: POSITIVE is
    SO_GOOD when the ratio is above 50 and GOOD when it is at most 50,
    NEGATIVE is SO_BAD above 50 and BAD at most 50, NEUTRAL is SO_SO. *)
Theorem classify_table (statistics : Scores float) (totalNumber : nat) :
  exists type sum,
    reduce larger (entries statistics) = Ok (type, sum) /\
    let ratio := PrimFloat.div sum (of_nat totalNumber) in
    match type with
    | POSITIVE =>
        (PrimFloat.ltb 50 ratio = true ->
         classify statistics totalNumber = Ok SO_GOOD) /\
        (PrimFloat.leb ratio 50 = true ->
         classify statistics totalNumber = Ok GOOD)
    | NEGATIVE =>
        (PrimFloat.ltb 50 ratio = true ->
         classify statistics totalNumber = Ok SO_BAD) /\
        (PrimFloat.leb ratio 50 = true ->
         classify statistics totalNumber = Ok BAD)
    | NEUTRAL => classify statistics totalNumber = Ok SO_SO
    end.
Proof.
  unfold classify.
  destruct (reduce larger (entries statistics)) as [[type sum]|e] eqn:E;
    [|discriminate].
  exists type, sum. split; [reflexivity|].
  change (@of_nat float binary64 50) with 50%float.
  change (div sum (of_nat totalNumber))
    with (PrimFloat.div sum (of_nat totalNumber)).
  destruct type; try reflexivity; split; intros Hratio.
  all: first [ apply leb_not_gt in Hratio; now rewrite Hratio
             | now rewrite gt_binary64, Hratio ].
Qed.

Example classify_60_10_5 :
  classify (mkScores 60%float 10%float 5%float) 1 = Ok SO_GOOD.
Proof. reflexivity. Qed.

Example classify_40_10_5 :
  classify (mkScores 40%float 10%float 5%float) 1 = Ok GOOD.
Proof. reflexivity. Qed.

(** C4: the key that wins the reduction is the first, in the order POSITIVE,
    NEGATIVE, NEUTRAL, to hold the largest sum. *)
Theorem first_maximal_wins (statistics : Scores float) (t : MoodType) :
  first_maximal statistics t ->
  reduce larger (entries statistics) = Ok (t, score statistics t).
Proof.
  intros [Hmax Hbefore].
  pose proof (Hmax POSITIVE) as Hp. pose proof (Hmax NEGATIVE) as Hn.
  pose proof (Hmax NEUTRAL) as Hu.
  unfold reduce, entries, larger. cbn [fold_left fst snd].
  destruct t; cbn [score] in *.
  - apply leb_not_gt in Hn, Hu. rewrite Hn. cbn [snd]. now rewrite Hu.
  - pose proof (Hbefore POSITIVE ltac:(simpl; lia)) as Hlt. cbn [score] in Hlt.
    apply leb_not_gt in Hu.
    rewrite (gt_binary64 (negative statistics)), Hlt. cbn [snd]. now rewrite Hu.
  - pose proof (Hbefore POSITIVE ltac:(simpl; lia)) as Hlt1.
    pose proof (Hbefore NEGATIVE ltac:(simpl; lia)) as Hlt2.
    cbn [score] in Hlt1, Hlt2.
    destruct (gt (negative statistics) (positive statistics)); cbn [snd];
      rewrite gt_binary64; now rewrite ?Hlt1, ?Hlt2.
Qed.

Lemma first_maximal_wins_witness :
  first_maximal three_way_tie POSITIVE /\
  reduce larger (entries three_way_tie) = Ok (POSITIVE, 10%float) /\
  classify three_way_tie 1 = Ok GOOD.
Proof.
  assert (first_maximal three_way_tie POSITIVE) as Hfirst.
  { split.
    - intros t'. destruct t'; reflexivity.
    - intros t' Hrank. destruct t'; simpl in Hrank; lia. }
  split; [exact Hfirst|].
  split; [exact (first_maximal_wins three_way_tie POSITIVE Hfirst) | reflexivity].
Defined.

(** ** The order of the analyses *)

Section Exact.
Context {num : Type} `{Number num}.
Hypothesis add_comm : forall x y : num, add x y = add y x.
Hypothesis add_assoc : forall x y z : num, add (add x y) z = add x (add y z).


End Exact.






(** ** The summary *)

Lemma get_plainToClass (dto : gmap string jsvalue) (key : string) :
  String.prefix "tag" key = false -> get (plainToClass dto) key = get dto key.
Proof.
  intros Hkey. unfold get, plainToClass. rewrite map_lookup_filter.
  destruct (dto !! key) as [v|]; [|reflexivity].
  simpl. now rewrite option_guard_True.
Qed.

(** What [getSummary] does with a string. *)
Lemma getSummary_run {num : Type} `{Number num} (env : Env num)
    (title : jsvalue) (content : jsstring) (w : World) :
  getSummary env title (VString content) w =
  (match clova_summary env w title (substring0 2000 content) with
   | None => Throw NetworkError
   | Some response =>
       match body response with
       | None => Throw SyntaxError
       | Some b => member b "summary"
       end
   end,
   w ++ [Summarize title (substring0 2000 content)]).
Proof.
  unfold getSummary, bind, lift, as_string, call, json.
  destruct (clova_summary env w title (substring0 2000 content))
    as [[st [b|]]|]; reflexivity.
Qed.

(** C8, as the program has it: [saveDiary] throws, with nothing analysed and
    nothing saved, when the summarize request is rejected or its body is not
    JSON or is [null].  When the body is a JSON object, whatever the status,
    [getSummary] returns its [summary] member, [undefined] when there is
    none, and that value is what [saveDiary] stores once the mood is judged. *)
Theorem saveDiary_summary {num : Type} `{Number num} (env : Env num)
    (user : jsvalue) (dto : gmap string jsvalue) (w : World)
    (tags : jsvalue) (content : jsstring) :
  tagsService_mapTagNameToTagType env w (get dto "tagNames") = Ok tags ->
  get dto "content" = VString content ->
  let w1 := w ++ [MapTagNameToTagType (get dto "tagNames")] in
  let request := Summarize (get dto "title") (substring0 2000 content) in
  let answer :=
    clova_summary env w1 (get dto "title") (substring0 2000 content) in
  (answer = None ->
   saveDiary env user dto w = (Throw NetworkError, w1 ++ [request])) /\
  (forall st,
     answer = Some (mkResponse st None) ->
     saveDiary env user dto w = (Throw SyntaxError, w1 ++ [request])) /\
  (forall st,
     answer = Some (mkResponse st (Some VNull)) ->
     saveDiary env user dto w = (Throw TypeError, w1 ++ [request])) /\
  (forall st o,
     answer = Some (mkResponse st (Some (VObject o))) ->
     getSummary env (get dto "title") (VString content) w1
       = (Ok (get o "summary"), w1 ++ [request]) /\
     (o !! "summary" = None -> get o "summary" = VUndefined) /\
     forall mood w3,
       judgeOverallMood env (VString content) (w1 ++ [request]) = (Ok mood, w3) ->
       exists diary,
         diary !! "summary" = Some (get o "summary") /\
         saveDiary env user dto w =
           (match diariesRepository_save env w3 diary with
            | Ok _ => Ok tt
            | Throw e => Throw e
            end,
            w3 ++ [Save diary])).
Proof.
  intros Htags Hcontent w1 request answer.
  assert (saveDiary env user dto w =
            match getSummary env (get dto "title") (VString content) w1 with
            | (Ok summary, w2) =>
                let diary :=
                  <["summary" := summary]>
                    (<["tags" := tags]> (<["author" := user]> (plainToClass dto))) in
                match judgeOverallMood env (VString content) w2 with
                | (Ok mood, w3) =>
                    let diary := <["mood" := moodDegree_value env mood]> diary in
                    (match diariesRepository_save env w3 diary with
                     | Ok _ => Ok tt
                     | Throw e => Throw e
                     end, w3 ++ [Save diary])
                | (Throw e, w3) => (Throw e, w3)
                end
            | (Throw e, w2) => (Throw e, w2)
            end) as Hsave.
  { unfold saveDiary. unfold bind at 1, call at 1. rewrite Htags.
    fold w1. cbv zeta.
    assert (forall (v1 v2 : jsvalue) key,
              key <> "tags" -> key <> "author" -> String.prefix "tag" key = false ->
              get (<["tags" := v1]> (<["author" := v2]> (plainToClass dto))) key
              = get dto key) as Hget.
    { intros v1 v2 key Ht Ha Hp. unfold get at 1.
      rewrite !lookup_insert_ne by congruence. now apply get_plainToClass. }
    rewrite !Hget by done.
    assert (forall (v0 v1 v2 : jsvalue),
              get (<["summary" := v0]>
                     (<["tags" := v1]> (<["author" := v2]> (plainToClass dto))))
                  "content" = VString content) as Hget'.
    { intros v0 v1 v2. unfold get at 1.
      rewrite lookup_insert_ne by done.
      fold (get (<["tags" := v1]> (<["author" := v2]> (plainToClass dto)))
                "content").
      rewrite Hget by done. exact Hcontent. }
    rewrite Hcontent. unfold bind at 1.
    destruct (getSummary env (get dto "title") (VString content) w1)
      as [[summary|e] w2]; [|reflexivity].
    rewrite Hget'. unfold bind at 1.
    destruct (judgeOverallMood env (VString content) w2) as [[mood|e] w3];
      [|reflexivity].
    unfold bind, call, ret.
    destruct (diariesRepository_save env w3 _); reflexivity. }
  rewrite Hsave, getSummary_run. fold answer request.
  split; [|split; [|split]].
  - intros ->. reflexivity.
  - intros st ->. reflexivity.
  - intros st ->. reflexivity.
  - intros st o ->. cbn [body member].
    split; [reflexivity|]. split.
    + intros Hnone. unfold get. now rewrite Hnone.
    + intros mood w3 ->. eexists. split; [|reflexivity].
      rewrite lookup_insert_ne by done. apply lookup_insert_eq.
Qed.

Lemma saveDiary_summary_witness :
  exists diary,
    diary !! "summary" = Some VUndefined /\
    saveDiary (stub all_positive (Some summary_error) ∅) author create_dto []
      = (Ok tt,
         [MapTagNameToTagType (VArray [VString (utf16 "park")]);
          Summarize (VString (utf16 "picnic")) short_body;
          AnalyzeMood (utf16 "sunny day");
          Save diary]).
Proof.
  destruct (saveDiary_summary
              (stub all_positive (Some summary_error) ∅) author create_dto []
              (VArray [VString (utf16 "park")]) short_body
              eq_refl eq_refl)
    as (_ & _ & _ & Hobject).
  destruct (Hobject 500 _ eq_refl) as (_ & _ & Hsaved).
  destruct (Hsaved SO_GOOD _ eq_refl) as (diary & Hsummary & Hrun).
  exists diary. split; [exact Hsummary | exact Hrun].
Defined.

(** C8, as stated, fails: the endpoint answers 500 with a body that has no
    [summary]; [getSummary] returns [undefined] and throws nothing, and
    [saveDiary] goes on to save the diary with that summary. *)
Lemma missing_summary_is_saved :
  member (VObject {[ "error" := VNull ]}) "summary" = Ok VUndefined /\
  getSummary (stub all_positive (Some summary_error) ∅)
             (VString (utf16 "picnic")) (VString short_body) []
    = (Ok VUndefined, [Summarize (VString (utf16 "picnic")) short_body]) /\
  exists diary,
    diary !! "summary" = Some VUndefined /\
    diary !! "mood" = Some (moodDegree_name SO_GOOD) /\
    saveDiary (stub all_positive (Some summary_error) ∅) author create_dto []
      = (Ok tt,
         [MapTagNameToTagType (VArray [VString (utf16 "park")]);
          Summarize (VString (utf16 "picnic")) short_body;
          AnalyzeMood (utf16 "sunny day");
          Save diary]).
Proof.
  split; [reflexivity|]. split; [reflexivity|].
  eexists. split; [|split]; [| |vm_compute; reflexivity]; reflexivity.
Qed.

(** ** Updating without content *)

(** The loop over the keys of the update: a key with a truthy value takes
    that value, every other key keeps what it had. *)
Lemma assign_truthy_lookup (existing dto : gmap string jsvalue) (key : string) :
  assign_truthy existing dto !! key =
  if truthy (get dto key) then dto !! key else existing !! key.
Proof.
  revert key. unfold assign_truthy.
  apply (map_fold_weak_ind
           (fun r m => forall key,
              r !! key = if truthy (get m key) then m !! key else existing !! key)).
  - intros key. unfold get. now rewrite lookup_empty.
  - intros i x m r Hfresh IH key. unfold get.
    destruct (decide (key = i)) as [->|Hne].
    + rewrite lookup_insert_eq. simpl.
      destruct (truthy x).
      * now rewrite lookup_insert_eq.
      * rewrite IH. unfold get. now rewrite Hfresh.
    + rewrite lookup_insert_ne by congruence.
      destruct (truthy x).
      * rewrite lookup_insert_ne by congruence. apply IH.
      * apply IH.
Qed.



(** * Further properties *)

(** A decidable proposition about given values, settled by computing it. *)
Ltac decide_by_computation :=
  match goal with
  | |- ?P => apply (bool_decide_eq_true_1 P); vm_compute; reflexivity
  end.

(** ** What the stripping removes and what it keeps *)

Lemma after_gt_suffix (s rest : jsstring) :
  after_gt s = Some rest -> rest `suffix_of` s.
Proof.
  induction s as [|c r IH]; simpl; [discriminate|].
  destruct (N.eqb c 62).
  - intros [= ->]. now apply suffix_cons_r.
  - intros E. apply suffix_cons_r. now apply IH.
Qed.

Lemma match_img_suffix (s rest : jsstring) :
  match_img s = Some rest -> rest `suffix_of` s.
Proof.
  destruct s as [|a [|b [|c [|d r]]]]; simpl; try discriminate.
  destruct (_ && _); [|discriminate].
  intros E. apply after_gt_suffix in E.
  now do 4 apply suffix_cons_r.
Qed.

Lemma after_gt_None (s : jsstring) : 62%N ∉ s -> after_gt s = None.
Proof.
  induction s as [|c r IH]; [reflexivity|].
  intros [Hc Hr]%not_elem_of_cons. simpl.
  destruct (N.eqb_spec c 62) as [->|_]; [congruence | now apply IH].
Qed.

Lemma after_gt_app (attrs rest : jsstring) :
  62%N ∉ attrs -> after_gt (attrs ++ 62%N :: rest) = Some rest.
Proof.
  induction attrs as [|c r IH]; [reflexivity|].
  intros [Hc Hr]%not_elem_of_cons. simpl.
  destruct (N.eqb_spec c 62) as [->|_]; [congruence | now apply IH].
Qed.

Lemma match_img_not_lt (c : N) (r : jsstring) :
  c <> 60%N -> match_img (c :: r) = None.
Proof.
  intros Hc. destruct r as [|b [|d [|e r]]]; try reflexivity.
  simpl. now destruct (N.eqb_spec c 60).
Qed.

Lemma match_img_no_gt (s : jsstring) : 62%N ∉ s -> match_img s = None.
Proof.
  destruct s as [|a [|b [|c [|d r]]]]; try reflexivity.
  intros Hs. simpl. destruct (_ && _); [|reflexivity].
  apply after_gt_None. intros Hin. apply Hs. now do 4 apply list_elem_of_further.
Qed.

Lemma replace_img_sublist (s : jsstring) : replace_img s `sublist_of` s.
Proof.
  remember (length s) as n eqn:En. revert s En.
  induction n as [n IH] using lt_wf_ind. intros s ->.
  destruct s as [|c r]; [constructor|].
  rewrite replace_img_cons.
  destruct (match_img (c :: r)) as [rest|] eqn:E.
  - pose proof (match_img_length _ _ E) as Hlen.
    apply match_img_suffix in E. destruct E as [pre ->].
    apply sublist_inserts_l. now apply (IH (length rest)).
  - apply sublist_skip. apply (IH (length r)); [simpl; lia | reflexivity].
Qed.

(** X1: stripping only deletes.  The stripped text is a subsequence of the
    text, so it is no longer than the text and has no code unit the text
    does not have. *)
Theorem replace_img_only_deletes (s : jsstring) :
  replace_img s `sublist_of` s /\
  length (replace_img s) <= length s /\
  (forall c, c ∈ replace_img s -> c ∈ s).
Proof.
  pose proof (replace_img_sublist s) as Hsub.
  split; [exact Hsub|]. split.
  - now apply sublist_length.
  - intros c Hc. now apply (elem_of_sublist _ _ _ Hc Hsub).
Qed.

(** X2: a text without [<], and a text without [>], has no image markup to
    strip: an [<img] that is never closed stays in the text. *)
Theorem replace_img_unclosed (s : jsstring) :
  60%N ∉ s \/ 62%N ∉ s -> replace_img s = s.
Proof.
  induction s as [|c r IH]; [reflexivity|].
  intros Hs. rewrite replace_img_cons.
  assert (match_img (c :: r) = None) as ->.
  { destruct Hs as [Hs|Hs].
    - apply match_img_not_lt. intros ->. apply Hs. constructor.
    - now apply match_img_no_gt. }
  f_equal. apply IH.
  destruct Hs as [Hs|Hs]; [left|right]; intros Hin; apply Hs;
    now apply list_elem_of_further.
Qed.

Lemma replace_img_unclosed_witness :
  replace_img (utf16 "a photo: <img src='a.png'") = utf16 "a photo: <img src='a.png'".
Proof.
  apply replace_img_unclosed. right. decide_by_computation.
Defined.

(** X3: an image tag is removed whole, with everything up to its first
    [>], and the text before it, when that has no [<], is kept. *)
Theorem replace_img_tag (pre attrs rest : jsstring) :
  60%N ∉ pre -> 62%N ∉ attrs ->
  replace_img (pre ++ utf16 "<img" ++ attrs ++ 62%N :: rest)
    = pre ++ replace_img rest.
Proof.
  intros Hpre Hattrs. induction pre as [|c r IH].
  - change (utf16 "<img") with [60%N; 105%N; 109%N; 103%N]. cbn [app].
    rewrite replace_img_cons. cbn [match_img].
    change (N.eqb 60 60 && N.eqb 105 105 && N.eqb 109 109 && N.eqb 103 103)
      with true. cbv iota.
    now rewrite after_gt_app.
  - apply not_elem_of_cons in Hpre as [Hc Hr].
    cbn [app]. rewrite replace_img_cons, match_img_not_lt by congruence.
    f_equal. now apply IH.
Qed.

Lemma replace_img_tag_witness :
  replace_img (utf16 "sunny " ++ utf16 "<img" ++ utf16 " src='a.png'"
                 ++ 62%N :: utf16 "day")
    = utf16 "sunny " ++ replace_img (utf16 "day").
Proof.
  apply replace_img_tag; decide_by_computation.
Defined.

(** ** Where the chunks lie *)

Lemma chunks_loop_positions (plain : jsstring) (k i : nat) :
  i + k = length plain / 1000 + 1 ->
  chunks_loop plain (length plain / 1000 + 1) k i =
  map (fun j => firstn 1000 (skipn (j * 1000) plain))
      (seq i (k - (if length plain mod 1000 =? 0 then 1 else 0))).
Proof.
  pose proof (Nat.div_mod_eq (length plain) 1000) as Hdm.
  pose proof (Nat.mod_upper_bound (length plain) 1000 ltac:(lia)) as Hm.
  remember (length plain / 1000) as q eqn:Eq.
  remember (length plain mod 1000) as m eqn:Em.
  revert i. induction k as [|k IH]; intros i Hi; cbn [chunks_loop].
  - reflexivity.
  - rewrite <- Em.
    destruct (i <? q + 1 - 1) eqn:Elt.
    + apply Nat.ltb_lt in Elt.
      destruct (i * 1000 =? i * 1000 + 1000) eqn:E; [apply Nat.eqb_eq in E; lia|].
      rewrite (IH (i + 1)) by lia.
      replace (S k - (if m =? 0 then 1 else 0))
        with (S (k - (if m =? 0 then 1 else 0))) by (destruct (m =? 0); lia).
      cbn [seq map]. unfold slice.
      replace (i * 1000 + 1000 - i * 1000) with 1000 by lia.
      now rewrite Nat.add_1_r.
    + apply Nat.ltb_ge in Elt. assert (i = q) as -> by lia.
      assert (k = 0) as -> by lia.
      destruct (q * 1000 =? q * 1000 + m) eqn:E.
      * apply Nat.eqb_eq in E. assert (m = 0) as -> by lia. reflexivity.
      * apply Nat.eqb_neq in E.
        destruct (m =? 0) eqn:E0; [apply Nat.eqb_eq in E0; lia|].
        cbn [chunks_loop seq map Nat.sub]. unfold slice. f_equal.
        replace (q * 1000 + m - q * 1000) with m by lia.
        rewrite !take_ge; [reflexivity | |]; rewrite length_drop; lia.
Qed.

(** X4: the chunks in closed form.  Chunk number [i], counted from 0, is the
    text from code unit [1000 * i] on, cut after 1000 code units; there are
    ceil(n / 1000) chunks.  The cuts fall at fixed places, whatever the text
    has there. *)
Theorem chunks_positions (plain : jsstring) :
  chunks plain =
  map (fun i => firstn 1000 (skipn (i * 1000) plain))
      (seq 0 ((length plain + 999) / 1000)).
Proof.
  unfold chunks. rewrite chunks_loop_positions by lia.
  now rewrite ceiling_1000.
Qed.

(** ** An analysis that fails *)

(** The analyses [answers] are what the service returns when the chunks
    [cs] are sent one after the other from the world [w] on. *)
Fixpoint answered_with {num : Type} `{Number num} (env : Env num) (w : World)
    (cs : list jsstring) (answers : list (Scores num)) : Prop :=
  match cs, answers with
  | [], [] => True
  | c :: cs', a :: answers' =>
      clova_sentiment env w c = Ok a /\
      answered_with env (w ++ [AnalyzeMood c]) cs' answers'
  | _, _ => False
  end.

Lemma classify_returns {num : Type} `{Number num}
    (statistics : Scores num) (totalNumber : nat) :
  exists degree, classify statistics totalNumber = Ok degree.
Proof.
  unfold classify, reduce, entries.
  destruct (fold_left larger _ _) as [[] sum];
    try destruct (gt _ _); eexists; reflexivity.
Qed.

(** One turn of the loop. *)
Lemma sumMoodAnalysis_loop_step {num : Type} `{Number num} (env : Env num)
    (plain : jsstring) (total k i : nat) (stats : Scores num) (w : World) :
  sumMoodAnalysis_loop env plain total (S k) i stats w =
  match chunks_loop plain total (S k) i with
  | [] => (Ok stats, w)
  | c :: _ =>
      match clova_sentiment env w c with
      | Ok a =>
          sumMoodAnalysis_loop env plain total k (i + 1) (accumulate stats a)
            (w ++ [AnalyzeMood c])
      | Throw e => (Throw e, w ++ [AnalyzeMood c])
      end
  end.
Proof.
  cbn [sumMoodAnalysis_loop chunks_loop].
  destruct (i * 1000 =? _); [reflexivity|].
  unfold bind, analyzeMood, call.
  now destruct (clova_sentiment env w _).
Qed.

Lemma sumMoodAnalysis_loop_trace {num : Type} `{Number num} (env : Env num)
    (plain : jsstring) (total k i : nat) (stats : Scores num) (w : World) :
  (exists answers,
     answered_with env w (chunks_loop plain total k i) answers /\
     sumMoodAnalysis_loop env plain total k i stats w =
     (Ok (fold_left accumulate answers stats),
      w ++ map AnalyzeMood (chunks_loop plain total k i))) \/
  (exists e pre c post answers,
     chunks_loop plain total k i = pre ++ c :: post /\
     answered_with env w pre answers /\
     clova_sentiment env (w ++ map AnalyzeMood pre) c = Throw e /\
     sumMoodAnalysis_loop env plain total k i stats w =
     (Throw e, w ++ map AnalyzeMood (pre ++ [c]))).
Proof.
  revert i stats w. induction k as [|k IH]; intros i stats w.
  - left. exists []. split; [exact I|]. simpl. unfold ret. now rewrite app_nil_r.
  - rewrite sumMoodAnalysis_loop_step.
    assert (forall c cs, chunks_loop plain total (S k) i = c :: cs ->
                         cs = chunks_loop plain total k (i + 1)) as Htail.
    { cbn [chunks_loop]. destruct (i * 1000 =? _); [discriminate|].
      now intros c cs [= _ <-]. }
    destruct (chunks_loop plain total (S k) i) as [|c cs] eqn:Ecs.
    + left. exists []. split; [exact I|]. simpl. now rewrite app_nil_r.
    + rewrite (Htail c cs eq_refl).
      destruct (clova_sentiment env w c) as [a|e] eqn:Ec.
      * destruct (IH (i + 1) (accumulate stats a) (w ++ [AnalyzeMood c]))
          as [(answers & Hans & Hrun)
             |(e & pre & c' & post & answers & Hcs & Hans & Hc' & Hrun)].
        -- left. exists (a :: answers). split; [now split|].
           rewrite Hrun. cbn [fold_left map]. now rewrite <- app_assoc.
        -- right. exists e, (c :: pre), c', post, (a :: answers).
           rewrite Hcs. split; [reflexivity|]. split; [now split|].
           cbn [map app]. split.
           ++ rewrite <- Hc'. f_equal. now rewrite <- app_assoc.
           ++ rewrite Hrun. now rewrite <- app_assoc.
      * right. exists e, [], c, (chunks_loop plain total k (i + 1)), [].
        repeat split; simpl; now rewrite ?app_nil_r.
Qed.

Lemma judgeOverallMood_string {num : Type} `{Number num} (env : Env num)
    (T : jsstring) (w : World) :
  judgeOverallMood env (VString T) w =
  match
    sumMoodAnalysis_loop env (replace_img T) (length (replace_img T) / 1000 + 1)
      (length (replace_img T) / 1000 + 1) 0 moodStatistics0 w
  with
  | (Ok statistics, w') =>
      (classify statistics (length (replace_img T) / 1000 + 1), w')
  | (Throw e, w') => (Throw e, w')
  end.
Proof.
  unfold judgeOverallMood, sumMoodAnalysis, bind, lift, as_string, ret.
  now destruct (sumMoodAnalysis_loop _ _ _ _ _ _ _) as [[s|e] w'].
Qed.

(** X5: [judgeOverallMood] on a string, whatever the sentiment service
    does.  Either every chunk is answered, and the mood is the
    classification of the sum of the answers, over floor(n / 1000) + 1; or
    the first analysis that fails ends the run: its error is thrown, the
    chunks behind it are never sent, and no mood is returned. *)
Theorem judgeOverallMood_run {num : Type} `{Number num} (env : Env num)
    (T : jsstring) (w : World) :
  (exists answers degree,
     answered_with env w (chunks (replace_img T)) answers /\
     classify (aggregate answers) (length (replace_img T) / 1000 + 1) = Ok degree /\
     judgeOverallMood env (VString T) w =
     (Ok degree, w ++ map AnalyzeMood (chunks (replace_img T)))) \/
  (exists e pre c post answers,
     chunks (replace_img T) = pre ++ c :: post /\
     answered_with env w pre answers /\
     clova_sentiment env (w ++ map AnalyzeMood pre) c = Throw e /\
     judgeOverallMood env (VString T) w =
     (Throw e, w ++ map AnalyzeMood (pre ++ [c]))).
Proof.
  rewrite judgeOverallMood_string. unfold chunks.
  set (plain := replace_img T). set (total := length plain / 1000 + 1).
  destruct (sumMoodAnalysis_loop_trace env plain total total 0 moodStatistics0 w)
    as [(answers & Hans & Hrun)
       |(e & pre & c & post & answers & Hcs & Hans & Hc & Hrun)];
    rewrite Hrun.
  - left. destruct (classify_returns (aggregate answers) total) as [degree Hd].
    exists answers, degree. split; [exact Hans|]. split; [exact Hd|].
    fold (aggregate answers). now rewrite Hd.
  - right. now exists e, pre, c, post, answers.
Qed.

(** ** Which sum decides the mood *)

(** A binary64 value that is not NaN: NaN is the one value not equal to
    itself. *)
Definition is_number (x : float) : Prop := PrimFloat.eqb x x = true.

Definition le_lt (c1 c2 : comparison) : comparison :=
  match c1, c2 with
  | Eq, Eq => Eq
  | _, _ => Lt
  end.

Lemma SFcompare_trans (x y z : spec_float) (c1 c2 : comparison) :
  SFcompare x y = Some c1 -> SFcompare y z = Some c2 ->
  c1 <> Gt -> c2 <> Gt ->
  SFcompare x z = Some (le_lt c1 c2).
Proof.
  destruct x as [sx | sx | | sx mx ex], y as [sy | sy | | sy my ey],
    z as [sz | sz | | sz mz ez];
    unfold SFcompare; try discriminate;
    repeat match goal with b : bool |- _ => destruct b end;
    try (intros [= <-] [= <-] ? ?; (reflexivity || congruence)).
  all: change (IntDef.Z.compare ?a ?b) with (Z.compare a b);
    change (PosDef.Pos.compare_cont Eq ?a ?b) with (Pos.compare a b);
    intros [= <-] [= <-] H1 H2; f_equal; revert H1 H2;
    repeat match goal with
           | |- context [Z.compare ?a ?b] => destruct (Z.compare_spec a b)
           | |- context [Pos.compare ?a ?b] => destruct (Pos.compare_spec a b)
           end; simpl; intros; try congruence; try lia.
Qed.

Lemma number_compare (x y : float) :
  is_number x -> is_number y ->
  exists c, SFcompare (Prim2SF x) (Prim2SF y) = Some c.
Proof.
  unfold is_number. rewrite !FloatAxioms.eqb_spec. unfold SFeqb.
  destruct (Prim2SF x), (Prim2SF y); simpl; try discriminate; eauto.
Qed.

Lemma gt_false_leb (x y : float) :
  is_number x -> is_number y -> gt x y = false -> PrimFloat.leb x y = true.
Proof.
  intros Hx Hy. rewrite gt_binary64, leb_spec, ltb_spec. unfold SFleb, SFltb.
  destruct (number_compare y x Hy Hx) as [c E]. rewrite E.
  rewrite (SFcompare_antisym _ _ _ E). now destruct c.
Qed.

Lemma gt_leb_false (x y : float) : gt x y = true -> PrimFloat.leb x y = false.
Proof.
  intros Hgt. destruct (PrimFloat.leb x y) eqn:E; [|reflexivity].
  apply leb_not_gt in E. congruence.
Qed.

Lemma gt_trans (a b c : float) :
  gt a b = true -> gt b c = true -> gt a c = true.
Proof.
  rewrite !gt_binary64, !ltb_spec. unfold SFltb.
  destruct (SFcompare (Prim2SF b) (Prim2SF a)) as [[]|] eqn:E1; try discriminate.
  destruct (SFcompare (Prim2SF c) (Prim2SF b)) as [[]|] eqn:E2; try discriminate.
  intros _ _. now rewrite (SFcompare_trans _ _ _ _ _ E2 E1).
Qed.

Lemma leb_gt_trans (a b c : float) :
  PrimFloat.leb c b = true -> gt a b = true -> gt a c = true.
Proof.
  rewrite !gt_binary64, leb_spec, !ltb_spec. unfold SFleb, SFltb.
  destruct (SFcompare (Prim2SF c) (Prim2SF b)) as [[]|] eqn:E1; try discriminate;
    destruct (SFcompare (Prim2SF b) (Prim2SF a)) as [[]|] eqn:E2;
    try discriminate; intros _ _;
    now rewrite (SFcompare_trans _ _ _ _ _ E1 E2).
Qed.

(** X6: which sum decides the mood, when no sum is NaN.  The mood is GOOD
    or SO_GOOD exactly when the positive sum is at least the other two, BAD
    or SO_BAD exactly when the negative sum is above the positive one and at
    least the neutral one, and SO_SO exactly when the neutral sum is above
    both: a tie goes to the key that comes first. *)
Theorem classify_by_order (statistics : Scores float) (totalNumber : nat) :
  is_number (positive statistics) ->
  is_number (negative statistics) ->
  is_number (neutral statistics) ->
  ((classify statistics totalNumber = Ok GOOD \/
    classify statistics totalNumber = Ok SO_GOOD) <->
   PrimFloat.leb (negative statistics) (positive statistics) = true /\
   PrimFloat.leb (neutral statistics) (positive statistics) = true) /\
  ((classify statistics totalNumber = Ok BAD \/
    classify statistics totalNumber = Ok SO_BAD) <->
   PrimFloat.ltb (positive statistics) (negative statistics) = true /\
   PrimFloat.leb (neutral statistics) (negative statistics) = true) /\
  (classify statistics totalNumber = Ok SO_SO <->
   PrimFloat.ltb (positive statistics) (neutral statistics) = true /\
   PrimFloat.ltb (negative statistics) (neutral statistics) = true).
Proof.
  destruct statistics as [p n u]. cbn [positive negative neutral].
  intros Hp Hn Hu.
  rewrite <- !gt_binary64.
  unfold classify, reduce, entries, larger.
  cbn [fold_left fst snd positive negative neutral].
  destruct (gt n p) eqn:E1; cbn [snd];
    [destruct (gt u n) eqn:E2 | destruct (gt u p) eqn:E2]; cbn [fst snd].
  - (* neutral above negative above positive *)
    rewrite (gt_trans _ _ _ E2 E1).
    rewrite (gt_leb_false _ _ E1), (gt_leb_false _ _ E2).
    intuition (discriminate || congruence).
  - (* negative above positive, neutral not above negative *)
    rewrite (gt_leb_false _ _ E1), (gt_false_leb _ _ Hu Hn E2).
    destruct (gt (div _ _) _); intuition (discriminate || congruence).
  - (* neutral above positive, negative not above positive *)
    pose proof (gt_false_leb _ _ Hn Hp E1) as H1.
    rewrite (leb_gt_trans _ _ _ H1 E2), H1, (gt_leb_false _ _ E2).
    intuition (discriminate || congruence).
  - (* nothing above positive *)
    rewrite (gt_false_leb _ _ Hn Hp E1), (gt_false_leb _ _ Hu Hp E2).
    destruct (gt (div _ _) _); intuition (discriminate || congruence).
Qed.

(** Sums where the negative and the neutral one tie above the positive. *)
Definition negative_neutral_tie : Scores float :=
  mkScores 20%float 30%float 30%float.

Lemma classify_by_order_witness :
  classify negative_neutral_tie 1 = Ok BAD /\
  PrimFloat.ltb 20 30 = true /\
  PrimFloat.leb 30 30 = true.
Proof.
  destruct (classify_by_order negative_neutral_tie 1 eq_refl eq_refl eq_refl)
    as (_ & [Hbad _] & _).
  split; [reflexivity|]. apply Hbad. left. reflexivity.
Defined.

(** ** Who may have a diary *)

(** What [findDiary] does, test by test. *)
Lemma findDiary_run {num : Type} `{Number num} (env : Env num)
    (user : jsvalue) (id : Z) (readMode : bool) (w : World) :
  findDiary env user id readMode w =
  (match diariesRepository_findById env w id with
   | Throw e => Throw e
   | Ok None => Throw BadRequestException
   | Ok (Some diary) =>
       if negb readMode
          || strict_equal (get diary "status") (diaryStatus_PRIVATE env)
       then
         match member (get diary "author") "id" with
         | Throw e => Throw e
         | Ok author_id =>
             match member user "id" with
             | Throw e => Throw e
             | Ok user_id =>
                 if strict_equal author_id user_id then Ok diary
                 else Throw ForbiddenException
             end
         end
       else Ok diary
   end,
   w ++ [FindById id]).
Proof.
  unfold findDiary, existsDiary, checkAuthorization, bind, call, throw, lift, ret.
  destruct (diariesRepository_findById env w id) as [[diary|]|e];
    try reflexivity.
  destruct (negb readMode || _); [|reflexivity].
  destruct (member (get diary "author") "id") as [a|e]; [|reflexivity].
  destruct (member user "id") as [u|e]; [|reflexivity].
  now destruct (strict_equal a u).
Qed.


(** X8: a diary whose status is not PRIVATE is returned in read mode to
    every user; neither the author nor the user is looked at. *)
Theorem findDiary_public_read {num : Type} `{Number num} (env : Env num)
    (user : jsvalue) (id : Z) (w : World) (diary : gmap string jsvalue) :
  diariesRepository_findById env w id = Ok (Some diary) ->
  strict_equal (get diary "status") (diaryStatus_PRIVATE env) = false ->
  findDiary env user id true w = (Ok diary, w ++ [FindById id]).
Proof.
  intros Hfound Hstatus. rewrite findDiary_run, Hfound, Hstatus. reflexivity.
Qed.

(** X9: outside read mode, and for a PRIVATE diary in any mode, the diary
    is returned exactly when the id of its author is the id of the user, and
    a ForbiddenException is thrown otherwise. *)
Theorem findDiary_owner_only {num : Type} `{Number num} (env : Env num)
    (user : jsvalue) (id : Z) (readMode : bool) (w : World)
    (diary : gmap string jsvalue) (author_id user_id : jsvalue) :
  diariesRepository_findById env w id = Ok (Some diary) ->
  readMode = false \/
  strict_equal (get diary "status") (diaryStatus_PRIVATE env) = true ->
  member (get diary "author") "id" = Ok author_id ->
  member user "id" = Ok user_id ->
  findDiary env user id readMode w =
  (if strict_equal author_id user_id then Ok diary
   else Throw ForbiddenException,
   w ++ [FindById id]).
Proof.
  intros Hfound Hmode Hauthor Huser.
  rewrite findDiary_run, Hfound, Hauthor, Huser.
  assert (negb readMode
          || strict_equal (get diary "status") (diaryStatus_PRIVATE env) = true)
    as ->; [|reflexivity].
  destruct Hmode as [->| ->]; [reflexivity | apply orb_true_r].
Qed.

(** A diary that is not private, and a user who did not write it. *)
Definition public_diary : gmap string jsvalue :=
  <["status" := VString (utf16 "public")]> stored_diary.

Definition reader : jsvalue := VObject {[ "id" := VNumber 8%float ]}.

Lemma findDiary_public_read_witness :
  findDiary (stub all_positive (Some summary_ok) public_diary) reader 1 true []
    = (Ok public_diary, [FindById 1]).
Proof.
  exact (findDiary_public_read
           (stub all_positive (Some summary_ok) public_diary) reader 1 []
           public_diary eq_refl eq_refl).
Defined.

Lemma findDiary_owner_only_witness :
  findDiary (stub all_positive (Some summary_ok) stored_diary) reader 1 true []
    = (Throw ForbiddenException, [FindById 1]) /\
  findDiary (stub all_positive (Some summary_ok) stored_diary) author 1 false []
    = (Ok stored_diary, [FindById 1]).
Proof.
  split.
  - exact (findDiary_owner_only
             (stub all_positive (Some summary_ok) stored_diary) reader 1 true []
             stored_diary (VNumber 7%float) (VNumber 8%float)
             eq_refl (or_intror eq_refl) eq_refl eq_refl).
  - exact (findDiary_owner_only
             (stub all_positive (Some summary_ok) stored_diary) author 1 false []
             stored_diary (VNumber 7%float) (VNumber 7%float)
             eq_refl (or_introl eq_refl) eq_refl eq_refl).
Defined.

(** ** The steps of saving and updating *)

Lemma saveDiary_run {num : Type} `{Number num} (env : Env num)
    (user : jsvalue) (dto : gmap string jsvalue) (w : World) :
  saveDiary env user dto w =
  let w1 := w ++ [MapTagNameToTagType (get dto "tagNames")] in
  match tagsService_mapTagNameToTagType env w (get dto "tagNames") with
  | Throw e => (Throw e, w1)
  | Ok tags =>
      let diary :=
        <["tags" := tags]> (<["author" := user]> (plainToClass dto)) in
      match getSummary env (get diary "title") (get diary "content") w1 with
      | (Throw e, w2) => (Throw e, w2)
      | (Ok summary, w2) =>
          let diary := <["summary" := summary]> diary in
          match judgeOverallMood env (get diary "content") w2 with
          | (Throw e, w3) => (Throw e, w3)
          | (Ok mood, w3) =>
              let diary := <["mood" := moodDegree_value env mood]> diary in
              (match diariesRepository_save env w3 diary with
               | Ok _ => Ok tt
               | Throw e => Throw e
               end,
               w3 ++ [Save diary])
          end
      end
  end.
Proof.
  unfold saveDiary. unfold bind at 1, call at 1.
  destruct (tagsService_mapTagNameToTagType env w _) as [tags|e];
    [|reflexivity].
  cbv zeta. unfold bind at 1.
  destruct (getSummary env _ _ _) as [[summary|e] w2]; [|reflexivity].
  unfold bind at 1.
  destruct (judgeOverallMood env _ _) as [[mood|e] w3]; [|reflexivity].
  unfold bind, call, ret.
  now destruct (diariesRepository_save env w3 _).
Qed.

Lemma updateDiary_run {num : Type} `{Number num} (env : Env num)
    (id : Z) (user : jsvalue) (dto : gmap string jsvalue) (w : World) :
  updateDiary env id user dto w =
  match findDiary env user id false w with
  | (Throw e, w1) => (Throw e, w1)
  | (Ok existing, w1) =>
      let w2 := w1 ++ [MapTagNameToTagType (get dto "tagNames")] in
      match tagsService_mapTagNameToTagType env w1 (get dto "tagNames") with
      | Throw e => (Throw e, w2)
      | Ok tags =>
          let diary := assign_truthy (<["tags" := tags]> existing) dto in
          if truthy (get dto "content") then
            match getSummary env (get diary "title") (get dto "content") w2 with
            | (Throw e, w3) => (Throw e, w3)
            | (Ok summary, w3) =>
                match judgeOverallMood env (get dto "content") w3 with
                | (Throw e, w4) => (Throw e, w4)
                | (Ok mood, w4) =>
                    let diary :=
                      <["mood" := moodDegree_value env mood]>
                        (<["summary" := summary]> diary) in
                    (diariesRepository_save env w4 diary, w4 ++ [Save diary])
                end
            end
          else (diariesRepository_save env w2 diary, w2 ++ [Save diary])
      end
  end.
Proof.
  unfold updateDiary. unfold bind at 1.
  destruct (findDiary env user id false w) as [[existing|e] w1]; [|reflexivity].
  unfold bind at 1, call at 1.
  destruct (tagsService_mapTagNameToTagType env w1 _) as [tags|e];
    [|reflexivity].
  cbv zeta. destruct (truthy (get dto "content")).
  - unfold bind at 1 2.
    destruct (getSummary env _ _ _) as [[summary|e] w3]; [|reflexivity].
    unfold bind at 1.
    destruct (judgeOverallMood env _ _) as [[mood|e] w4]; reflexivity.
  - reflexivity.
Qed.

Lemma get_diary_field {num : Type} `{Number num} (dto : gmap string jsvalue)
    (tags user : jsvalue) (key : string) :
  key <> "tags" -> key <> "author" -> String.prefix "tag" key = false ->
  get (<["tags" := tags]> (<["author" := user]> (plainToClass dto))) key
  = get dto key.
Proof.
  intros Ht Ha Hp. unfold get at 1.
  rewrite !lookup_insert_ne by congruence. now apply get_plainToClass.
Qed.

Lemma judgeOverallMood_answered {num : Type} `{Number num} (env : Env num)
    (reply : World -> jsstring -> Scores num) (T : jsstring) (w : World) :
  (forall w' c, clova_sentiment env w' c = Ok (reply w' c)) ->
  judgeOverallMood env (VString T) w =
  (classify (aggregate (analyses reply w (chunks (replace_img T))))
            (length (replace_img T) / 1000 + 1),
   w ++ map AnalyzeMood (chunks (replace_img T))).
Proof.
  intros answered. unfold judgeOverallMood. unfold bind at 1.
  now rewrite (sumMoodAnalysis_answered env reply answered).
Qed.

(** X10: a user who is not the author cannot update a diary.  The update
    ends in a ForbiddenException when the look-up is done: no tag name is
    mapped, nothing is summarised or analysed, and nothing is saved. *)
Theorem updateDiary_not_author {num : Type} `{Number num} (env : Env num)
    (id : Z) (user : jsvalue) (dto : gmap string jsvalue) (w : World)
    (diary : gmap string jsvalue) (author_id user_id : jsvalue) :
  diariesRepository_findById env w id = Ok (Some diary) ->
  member (get diary "author") "id" = Ok author_id ->
  member user "id" = Ok user_id ->
  strict_equal author_id user_id = false ->
  updateDiary env id user dto w = (Throw ForbiddenException, w ++ [FindById id]).
Proof.
  intros Hfound Hauthor Huser Hne.
  rewrite updateDiary_run, findDiary_run, Hfound, Hauthor, Huser, Hne.
  reflexivity.
Qed.

Lemma updateDiary_not_author_witness :
  updateDiary (stub all_positive (Some summary_ok) public_diary)
              1 reader rename_dto []
    = (Throw ForbiddenException, [FindById 1]).
Proof.
  exact (updateDiary_not_author
           (stub all_positive (Some summary_ok) public_diary)
           1 reader rename_dto [] public_diary
           (VNumber 7%float) (VNumber 8%float)
           eq_refl eq_refl eq_refl eq_refl).
Defined.

(** X11: an update that carries content.  With the summary and every
    analysis answered, the summary request has the title the update gives
    (the stored one when it gives none) and the first 2000 code units of the
    new content; the mood is judged on the new content; and the diary that is
    saved has the new content, the summary returned and the mood judged,
    whatever the update carries under [summary] and [mood]. *)
Theorem updateDiary_with_content {num : Type} `{Number num} (env : Env num)
    (reply : World -> jsstring -> Scores num)
    (id : Z) (user : jsvalue) (dto : gmap string jsvalue) (w w1 : World)
    (existing : gmap string jsvalue) (tags : jsvalue) (content : jsstring)
    (response : Response) (b summary : jsvalue) :
  findDiary env user id false w = (Ok existing, w1) ->
  tagsService_mapTagNameToTagType env w1 (get dto "tagNames") = Ok tags ->
  get dto "content" = VString content ->
  content <> [] ->
  let title :=
    if truthy (get dto "title") then get dto "title"
    else get existing "title" in
  let w2 := w1 ++ [MapTagNameToTagType (get dto "tagNames")] in
  let w3 := w2 ++ [Summarize title (substring0 2000 content)] in
  let w4 := w3 ++ map AnalyzeMood (chunks (replace_img content)) in
  clova_summary env w2 title (substring0 2000 content) = Some response ->
  body response = Some b ->
  member b "summary" = Ok summary ->
  (forall w' c, clova_sentiment env w' c = Ok (reply w' c)) ->
  exists mood saved,
    classify (aggregate (analyses reply w3 (chunks (replace_img content))))
             (length (replace_img content) / 1000 + 1) = Ok mood /\
    updateDiary env id user dto w
      = (diariesRepository_save env w4 saved, w4 ++ [Save saved]) /\
    saved !! "content" = Some (VString content) /\
    saved !! "summary" = Some summary /\
    saved !! "mood" = Some (moodDegree_value env mood).
Proof.
  intros Hfind Htags Hcontent Hne title w2 w3 w4 Hanswer Hbody Hmember answered.
  destruct (classify_returns
              (aggregate (analyses reply w3 (chunks (replace_img content))))
              (length (replace_img content) / 1000 + 1)) as [mood Hmood].
  set (diary := assign_truthy (<["tags" := tags]> existing) dto).
  assert (truthy (get dto "content") = true) as Htruthy.
  { rewrite Hcontent. destruct content; [congruence | reflexivity]. }
  assert (get diary "title" = title) as Htitle.
  { unfold get at 1, diary, title. rewrite assign_truthy_lookup.
    destruct (truthy (get dto "title")); [reflexivity|].
    now rewrite lookup_insert_ne. }
  exists mood,
    (<["mood" := moodDegree_value env mood]> (<["summary" := summary]> diary)).
  split; [exact Hmood|]. split.
  - rewrite updateDiary_run, Hfind, Htags, Htruthy. cbv zeta. fold diary.
    rewrite Htitle, Hcontent, getSummary_run. fold w2. rewrite Hanswer, Hbody, Hmember.
    fold w3. rewrite (judgeOverallMood_answered env reply content w3 answered).
    now rewrite Hmood.
  - split; [|split].
    + rewrite !lookup_insert_ne by done.
      unfold diary. rewrite assign_truthy_lookup, Htruthy.
      unfold get in Hcontent. now destruct (dto !! "content"); simplify_eq/=.
    + rewrite lookup_insert_ne by done. apply lookup_insert_eq.
    + apply lookup_insert_eq.
Qed.

(** An update with new content, and a summary of its own. *)
Definition rewrite_dto : gmap string jsvalue :=
  {[ "content" := VString (utf16 "rain <img src='b.png'>again");
     "summary" := VString (utf16 "my own summary");
     "tagNames" := VArray [VString (utf16 "park")] ]}.

Lemma updateDiary_with_content_witness :
  exists saved,
    updateDiary (stub all_positive (Some summary_ok) stored_diary)
                1 author rewrite_dto []
      = (Ok saved,
         [FindById 1;
          MapTagNameToTagType (VArray [VString (utf16 "park")]);
          Summarize (VString (utf16 "picnic"))
                    (utf16 "rain <img src='b.png'>again");
          AnalyzeMood (utf16 "rain again");
          Save saved]) /\
    saved !! "summary" = Some (VString (utf16 "a day out")) /\
    saved !! "mood" = Some (moodDegree_name SO_GOOD).
Proof.
  assert (utf16 "rain <img src='b.png'>again" <> []) as Hne
    by (vm_compute; discriminate).
  destruct (updateDiary_with_content
              (stub all_positive (Some summary_ok) stored_diary)
              (fun _ _ => all_positive) 1 author rewrite_dto [] [FindById 1]
              stored_diary (VArray [VString (utf16 "park")])
              (utf16 "rain <img src='b.png'>again") summary_ok
              (VObject {[ "summary" := VString (utf16 "a day out") ]})
              (VString (utf16 "a day out"))
              eq_refl eq_refl eq_refl Hne eq_refl eq_refl eq_refl
              (fun _ _ => eq_refl))
    as (mood & saved & Hmood & Hrun & _ & Hsummary & Hm).
  assert (mood = SO_GOOD) as -> by (vm_compute in Hmood; congruence).
  exists saved. split; [exact Hrun|]. split; [exact Hsummary | exact Hm].
Defined.



(** ** Nothing is saved after a failure *)

Definition is_save (e : Event) : bool :=
  match e with
  | Save _ => true
  | _ => false
  end.

Lemma no_save_analyses (cs : list jsstring) :
  Forall (fun e => is_save e = false) (map AnalyzeMood cs).
Proof. induction cs; constructor; [reflexivity | assumption]. Qed.

Lemma getSummary_events {num : Type} `{Number num} (env : Env num)
    (title content : jsvalue) (w : World) :
  exists evs,
    snd (getSummary env title content w) = w ++ evs /\
    Forall (fun e => is_save e = false) evs.
Proof.
  destruct content as [| | | |s| |];
    try (exists []; split; [symmetry; apply app_nil_r | constructor]).
  rewrite getSummary_run. eexists. split; [reflexivity|].
  now repeat constructor.
Qed.

Lemma judgeOverallMood_events {num : Type} `{Number num} (env : Env num)
    (fullContent : jsvalue) (w : World) :
  exists evs,
    snd (judgeOverallMood env fullContent w) = w ++ evs /\
    Forall (fun e => is_save e = false) evs.
Proof.
  destruct fullContent as [| | | |T| |];
    try (exists []; split; [symmetry; apply app_nil_r | constructor]).
  rewrite judgeOverallMood_string.
  destruct (sumMoodAnalysis_loop_trace env (replace_img T)
              (length (replace_img T) / 1000 + 1)
              (length (replace_img T) / 1000 + 1) 0 moodStatistics0 w)
    as [(answers & _ & ->)|(e & pre & c & post & answers & _ & _ & _ & ->)];
    eexists; (split; [reflexivity | apply no_save_analyses]).
Qed.


(** X14: [updateDiary] saves last and at most once.  Whatever the services
    answer, either it throws with no save request sent, or the save request is
    the last one sent, the only one of its kind, and what the repository
    answers is what [updateDiary] returns. *)
Theorem updateDiary_saves_last {num : Type} `{Number num} (env : Env num)
    (id : Z) (user : jsvalue) (dto : gmap string jsvalue) (w : World) :
  exists evs,
    snd (updateDiary env id user dto w) = w ++ evs /\
    ((exists e,
        fst (updateDiary env id user dto w) = Throw e /\
        Forall (fun ev => is_save ev = false) evs) \/
     (exists pre diary,
        evs = pre ++ [Save diary] /\
        Forall (fun ev => is_save ev = false) pre /\
        fst (updateDiary env id user dto w) =
        diariesRepository_save env (w ++ pre) diary)).
Proof.
  rewrite updateDiary_run.
  pose proof (findDiary_run env user id false w) as Hfind.
  destruct (findDiary env user id false w) as [[existing|e] w1];
    injection Hfind as _ ->.
  2: { eexists. split; [reflexivity|]. left. exists e.
       split; [reflexivity | now repeat constructor]. }
  cbv zeta.
  destruct (tagsService_mapTagNameToTagType env _ _) as [tags|e].
  2: { eexists. split; [cbn [snd]; symmetry; apply app_assoc|]. left. exists e.
       split; [reflexivity | now repeat constructor]. }
  set (diary0 := assign_truthy _ _).
  destruct (truthy (get dto "content")).
  - destruct (getSummary_events env (get diary0 "title") (get dto "content")
                ((w ++ [FindById id])
                   ++ [MapTagNameToTagType (get dto "tagNames")]))
      as (evs1 & Hw3 & Hno1).
    destruct (getSummary env _ _ _) as [[summary|e] w3]; cbn [snd] in Hw3;
      subst w3.
    2: { exists ([FindById id; MapTagNameToTagType (get dto "tagNames")] ++ evs1).
         split; [cbn [snd]; now rewrite <- !app_assoc|]. left. exists e.
         split; [reflexivity|]. apply Forall_app. now repeat constructor. }
    destruct (judgeOverallMood_events env (get dto "content")
                (((w ++ [FindById id])
                    ++ [MapTagNameToTagType (get dto "tagNames")]) ++ evs1))
      as (evs2 & Hw4 & Hno2).
    destruct (judgeOverallMood env _ _) as [[mood|e] w4]; cbn [snd] in Hw4;
      subst w4.
    2: { exists ([FindById id; MapTagNameToTagType (get dto "tagNames")]
                   ++ evs1 ++ evs2).
         split; [cbn [snd]; now rewrite <- !app_assoc|]. left. exists e.
         split; [reflexivity|]. rewrite !Forall_app. now repeat constructor. }
    set (diary2 := <["mood" := _]> _).
    exists (([FindById id; MapTagNameToTagType (get dto "tagNames")]
               ++ evs1 ++ evs2) ++ [Save diary2]).
    split; [cbn [snd]; now rewrite <- !app_assoc|].
    right.
    exists ([FindById id; MapTagNameToTagType (get dto "tagNames")]
              ++ evs1 ++ evs2), diary2.
    split; [reflexivity|]. split.
    + rewrite !Forall_app. now repeat constructor.
    + cbn [fst]. now rewrite <- !app_assoc.
  - exists ([FindById id; MapTagNameToTagType (get dto "tagNames")]
              ++ [Save diary0]).
    split; [cbn [snd]; now rewrite <- !app_assoc|].
    right. exists [FindById id; MapTagNameToTagType (get dto "tagNames")], diary0.
    split; [reflexivity|]. split; [now repeat constructor|].
    cbn [fst]. now rewrite <- !app_assoc.
Qed.

(** X15: a diary without a string as content is not created.  Once the tag
    names are mapped, [saveDiary] throws a TypeError: no summary is asked
    for, nothing is analysed and nothing is saved. *)
Theorem saveDiary_without_content {num : Type} `{Number num} (env : Env num)
    (user : jsvalue) (dto : gmap string jsvalue) (w : World) (tags : jsvalue) :
  tagsService_mapTagNameToTagType env w (get dto "tagNames") = Ok tags ->
  (forall s, get dto "content" <> VString s) ->
  saveDiary env user dto w
    = (Throw TypeError, w ++ [MapTagNameToTagType (get dto "tagNames")]).
Proof.
  intros Htags Hcontent. rewrite saveDiary_run, Htags. cbv zeta.
  rewrite !get_diary_field by done.
  unfold getSummary, bind, lift, as_string.
  destruct (get dto "content") as [| | | |s| |]; try reflexivity.
  now destruct (Hcontent s).
Qed.

Lemma saveDiary_without_content_witness :
  saveDiary (stub all_positive (Some summary_ok) ∅) author rename_dto []
    = (Throw TypeError, [MapTagNameToTagType (VArray [VString (utf16 "park")])]).
Proof.
  apply (saveDiary_without_content
           (stub all_positive (Some summary_ok) ∅) author rename_dto []
           (VArray [VString (utf16 "park")]) eq_refl).
  intros s. discriminate.
Defined.

(** * Grouping diaries by emotion *)

(** The [diaryInfo] literal of [groupDiariesByEmotion]. *)
Record DiaryInfo : Type := mkDiaryInfo {
  info_id : jsvalue;
  info_title : jsvalue;
  info_createdAt : jsvalue
}.

(** An element of the accumulator, a [GetAllEmotionsResponseDto]. *)
Record EmotionGroup : Type := mkEmotionGroup {
  emotion : jsvalue;
  diaryInfos : list DiaryInfo
}.

Definition diaryInfo (crr : gmap string jsvalue) : DiaryInfo :=
  mkDiaryInfo (get crr "id") (get crr "title") (get crr "createdAt").

(** [acc.find((e) => e.emotion === emotion)] followed by
    [existingEmotion.diaryInfos.push(info)]: the first element with the
    emotion gets the info at the end of its list, in place; [None] when
    [find] returns [undefined]. *)
Fixpoint push_diaryInfo (acc : list EmotionGroup) (crr_emotion : jsvalue)
    (info : DiaryInfo) : option (list EmotionGroup) :=
  match acc with
  | [] => None
  | e :: acc' =>
      if strict_equal (emotion e) crr_emotion
      then Some (mkEmotionGroup (emotion e) (diaryInfos e ++ [info]) :: acc')
      else
        match push_diaryInfo acc' crr_emotion info with
        | Some acc'' => Some (e :: acc'')
        | None => None
        end
  end.

(** The callback of the [reduce]. *)
Definition groupDiariesByEmotion_step (acc : list EmotionGroup)
    (crr : gmap string jsvalue) : list EmotionGroup :=
  match push_diaryInfo acc (get crr "emotion") (diaryInfo crr) with
  | Some acc' => acc'
  | None => acc ++ [mkEmotionGroup (get crr "emotion") [diaryInfo crr]]
  end.

Definition groupDiariesByEmotion (diaries : list (gmap string jsvalue))
  : list EmotionGroup :=
  fold_left groupDiariesByEmotion_step diaries [].

(** The diaries the examples group. *)
Definition diary_of (id : float) (title emotion : string)
  : gmap string jsvalue :=
  {[ "id" := VNumber id;
     "title" := VString (utf16 title);
     "emotion" := VString (utf16 emotion) ]}.

Definition week : list (gmap string jsvalue) :=
  [diary_of 1 "monday" "happy"; diary_of 2 "tuesday" "sad";
   diary_of 3 "wednesday" "happy"].

(** ** Properties of the grouping *)

(** What [push_diaryInfo] finds. *)
Lemma push_diaryInfo_Some (acc acc' : list EmotionGroup) (e : jsvalue)
    (info : DiaryInfo) :
  push_diaryInfo acc e info = Some acc' ->
  exists pre g post,
    acc = pre ++ g :: post /\
    acc' = pre ++ mkEmotionGroup (emotion g) (diaryInfos g ++ [info]) :: post /\
    strict_equal (emotion g) e = true /\
    Forall (fun g' => strict_equal (emotion g') e = false) pre.
Proof.
  revert acc'. induction acc as [|g acc IH]; intros acc'; simpl; [discriminate|].
  destruct (strict_equal (emotion g) e) eqn:E.
  - intros [= <-]. exists [], g, acc. repeat split; [exact E | constructor].
  - destruct (push_diaryInfo acc e info) as [acc''|]; [|discriminate].
    intros [= <-].
    destruct (IH acc'' eq_refl) as (pre & g0 & post & -> & -> & Hg0 & Hpre).
    exists (g :: pre), g0, post. repeat split; [exact Hg0 | now constructor].
Qed.

Lemma push_diaryInfo_None (acc : list EmotionGroup) (e : jsvalue)
    (info : DiaryInfo) :
  push_diaryInfo acc e info = None ->
  Forall (fun g => strict_equal (emotion g) e = false) acc.
Proof.
  induction acc as [|g acc IH]; simpl; [constructor|].
  destruct (strict_equal (emotion g) e) eqn:E; [discriminate|].
  destruct (push_diaryInfo acc e info); [discriminate|].
  intros _. constructor; [exact E | now apply IH].
Qed.

Lemma groupDiariesByEmotion_step_infos (acc : list EmotionGroup)
    (crr : gmap string jsvalue) :
  concat (map diaryInfos (groupDiariesByEmotion_step acc crr))
    ≡ₚ concat (map diaryInfos acc) ++ [diaryInfo crr] /\
  (Forall (fun g => diaryInfos g <> []) acc ->
   Forall (fun g => diaryInfos g <> []) (groupDiariesByEmotion_step acc crr)).
Proof.
  unfold groupDiariesByEmotion_step.
  destruct (push_diaryInfo acc _ _) as [acc'|] eqn:E.
  - apply push_diaryInfo_Some in E as (pre & g & post & -> & -> & _ & _).
    split.
    + rewrite !map_app, !concat_app. cbn [map concat diaryInfos].
      rewrite <- !app_assoc. apply Permutation_app_head, Permutation_app_head.
      apply Permutation_app_comm.
    + rewrite !Forall_app, !Forall_cons. intros (Hpre & _ & Hpost).
      repeat split; try assumption. cbn [diaryInfos].
      now destruct (diaryInfos g).
  - split.
    + rewrite map_app, concat_app. cbn [map concat diaryInfos].
      now rewrite app_nil_r.
    + intros Hacc. apply Forall_app. split; [exact Hacc|].
      now repeat constructor.
Qed.

Lemma fold_groupDiariesByEmotion_infos (diaries : list (gmap string jsvalue))
    (acc : list EmotionGroup) :
  concat (map diaryInfos (fold_left groupDiariesByEmotion_step diaries acc))
    ≡ₚ concat (map diaryInfos acc) ++ map diaryInfo diaries /\
  (Forall (fun g => diaryInfos g <> []) acc ->
   Forall (fun g => diaryInfos g <> [])
          (fold_left groupDiariesByEmotion_step diaries acc)).
Proof.
  revert acc. induction diaries as [|crr diaries IH]; intros acc;
    cbn [fold_left map].
  - now rewrite app_nil_r.
  - destruct (IH (groupDiariesByEmotion_step acc crr)) as [Hperm Hne].
    destruct (groupDiariesByEmotion_step_infos acc crr) as [Hperm' Hne'].
    split.
    + rewrite Hperm, Hperm'. now rewrite <- app_assoc.
    + intros Hacc. auto.
Qed.

(** X16: the grouping loses no diary and invents none.  The infos of all
    groups together are the infos of the diaries, each as often as its diary
    occurs, and no group is empty; this holds whatever the emotions are. *)
Theorem groupDiariesByEmotion_infos (diaries : list (gmap string jsvalue)) :
  concat (map diaryInfos (groupDiariesByEmotion diaries))
    ≡ₚ map diaryInfo diaries /\
  Forall (fun g => diaryInfos g <> []) (groupDiariesByEmotion diaries).
Proof.
  destruct (fold_groupDiariesByEmotion_infos diaries []) as [Hperm Hne].
  split; [exact Hperm | apply Hne; constructor].
Qed.

Lemma strict_equal_string_r (v : jsvalue) (s : jsstring) :
  strict_equal v (VString s) = true <-> v = VString s.
Proof.
  destruct v as [| | | |s'| |]; simpl; try (split; discriminate).
  rewrite bool_decide_eq_true. split; congruence.
Qed.

Lemma strict_equal_string_l (v : jsvalue) (s : jsstring) :
  strict_equal (VString s) v = true <-> v = VString s.
Proof.
  destruct v as [| | | |s'| |]; simpl; try (split; discriminate).
  rewrite bool_decide_eq_true. split; congruence.
Qed.

Lemma strict_equal_string_refl (s : jsstring) :
  strict_equal (VString s) (VString s) = true.
Proof. now apply strict_equal_string_r. Qed.

Lemma filter_snoc_false {A : Type} (p : A -> bool) (l : list A) (x : A) :
  p x = false -> List.filter p (l ++ [x]) = List.filter p l.
Proof.
  intros Hx. rewrite List.filter_app. cbn [List.filter]. rewrite Hx.
  apply app_nil_r.
Qed.

Lemma filter_snoc_true {A : Type} (p : A -> bool) (l : list A) (x : A) :
  p x = true -> List.filter p (l ++ [x]) = List.filter p l ++ [x].
Proof.
  intros Hx. rewrite List.filter_app. cbn [List.filter]. now rewrite Hx.
Qed.

Lemma filter_none {A : Type} (p : A -> bool) (l : list A) :
  Forall (fun x => p x = false) l -> List.filter p l = [].
Proof.
  induction 1 as [|x l Hx _ IH]; [reflexivity|].
  cbn [List.filter]. now rewrite Hx.
Qed.

(** What the accumulator is after the diaries [ds], when every emotion is
    a string: one group for each emotion, with the infos of the diaries that
    have it, in their order. *)
Definition grouped (ds : list (gmap string jsvalue)) (acc : list EmotionGroup)
  : Prop :=
  NoDup (map emotion acc) /\
  Forall (fun g =>
            diaryInfos g =
            map diaryInfo
                (List.filter
                   (fun d => strict_equal (emotion g) (get d "emotion")) ds))
         acc /\
  Forall (fun d => get d "emotion" ∈ map emotion acc) ds.

Lemma grouped_found (ds : list (gmap string jsvalue))
    (pre post : list EmotionGroup) (g : EmotionGroup)
    (crr : gmap string jsvalue) (s : jsstring) :
  get crr "emotion" = VString s ->
  emotion g = VString s ->
  Forall (fun g' => strict_equal (emotion g') (VString s) = false) pre ->
  grouped ds (pre ++ g :: post) ->
  grouped (ds ++ [crr])
          (pre ++ mkEmotionGroup (emotion g) (diaryInfos g ++ [diaryInfo crr])
               :: post).
Proof.
  intros Hs Hg Hpre (Hnodup & Hinfos & Hall).
  assert (map emotion
            (pre ++ mkEmotionGroup (emotion g) (diaryInfos g ++ [diaryInfo crr])
                 :: post)
          = map emotion (pre ++ g :: post)) as Hmap
    by now rewrite !map_app.
  unfold grouped. rewrite Hmap.
  split; [exact Hnodup|]. split.
  - rewrite Forall_app, Forall_cons in Hinfos.
    destruct Hinfos as (Hipre & Hig & Hipost).
    rewrite map_app in Hnodup. cbn [map] in Hnodup.
    apply NoDup_app in Hnodup as (_ & _ & Hnodup).
    apply NoDup_cons in Hnodup as [Hnotin _].
    rewrite Forall_app, Forall_cons. split; [|split].
    + rewrite Forall_forall in Hipre, Hpre |- *. intros g' Hin.
      rewrite filter_snoc_false; [now apply Hipre|].
      rewrite Hs. now apply Hpre.
    + cbn [emotion diaryInfos]. rewrite filter_snoc_true.
      * now rewrite map_app, <- Hig.
      * rewrite Hs, Hg. apply strict_equal_string_refl.
    + rewrite Forall_forall in Hipost |- *. intros g' Hin.
      rewrite filter_snoc_false; [now apply Hipost|].
      rewrite Hs. destruct (strict_equal (emotion g') (VString s)) eqn:E;
        [|reflexivity].
      apply strict_equal_string_r in E. exfalso. apply Hnotin.
      rewrite Hg, <- E. now apply list_elem_of_fmap_2.
  - apply Forall_app. split; [exact Hall|].
    repeat constructor. rewrite Hs, <- Hg, map_app.
    apply elem_of_app. right. constructor.
Qed.

Lemma grouped_new (ds : list (gmap string jsvalue)) (acc : list EmotionGroup)
    (crr : gmap string jsvalue) (s : jsstring) :
  get crr "emotion" = VString s ->
  Forall (fun g => strict_equal (emotion g) (VString s) = false) acc ->
  grouped ds acc ->
  grouped (ds ++ [crr]) (acc ++ [mkEmotionGroup (VString s) [diaryInfo crr]]).
Proof.
  intros Hs Hacc (Hnodup & Hinfos & Hall).
  assert (VString s ∉ map emotion acc) as Hfresh.
  { intros (g & Hge & Hg)%list_elem_of_fmap.
    rewrite Forall_forall in Hacc. specialize (Hacc g Hg).
    rewrite <- Hge, strict_equal_string_refl in Hacc. discriminate. }
  unfold grouped. rewrite map_app. cbn [map emotion].
  split; [|split].
  - apply NoDup_app. split; [exact Hnodup|]. split.
    + intros e He Hin. apply list_elem_of_singleton in Hin as ->.
      now apply Hfresh.
    + apply NoDup_singleton.
  - apply Forall_app. split.
    + rewrite Forall_forall in Hinfos, Hacc |- *. intros g Hin.
      rewrite filter_snoc_false; [now apply Hinfos|].
      rewrite Hs. now apply Hacc.
    + repeat constructor. cbn [emotion diaryInfos].
      rewrite filter_snoc_true
        by (rewrite Hs; apply strict_equal_string_refl).
      rewrite filter_none; [reflexivity|].
      rewrite Forall_forall in Hall |- *. intros d Hd.
      destruct (strict_equal (VString s) (get d "emotion")) eqn:E;
        [|reflexivity].
      apply strict_equal_string_l in E. exfalso. apply Hfresh.
      rewrite <- E. now apply Hall.
  - apply Forall_app. split.
    + eapply Forall_impl; [exact Hall|]. intros d Hd.
      apply elem_of_app. now left.
    + repeat constructor. rewrite Hs. apply elem_of_app. right. constructor.
Qed.

Lemma grouped_step (ds : list (gmap string jsvalue)) (acc : list EmotionGroup)
    (crr : gmap string jsvalue) (s : jsstring) :
  get crr "emotion" = VString s ->
  grouped ds acc ->
  grouped (ds ++ [crr]) (groupDiariesByEmotion_step acc crr).
Proof.
  intros Hs Hacc. unfold groupDiariesByEmotion_step.
  destruct (push_diaryInfo acc (get crr "emotion") (diaryInfo crr))
    as [acc'|] eqn:E.
  - apply push_diaryInfo_Some in E as (pre & g & post & -> & -> & Hg & Hpre).
    rewrite Hs in Hg, Hpre. apply strict_equal_string_r in Hg.
    now apply grouped_found with (s := s).
  - apply push_diaryInfo_None in E. rewrite Hs in E |- *.
    now apply grouped_new.
Qed.

Lemma fold_grouped (ds done : list (gmap string jsvalue))
    (acc : list EmotionGroup) :
  Forall (fun d => exists s, get d "emotion" = VString s) ds ->
  grouped done acc ->
  grouped (done ++ ds) (fold_left groupDiariesByEmotion_step ds acc).
Proof.
  revert done acc. induction ds as [|crr ds IH]; intros done acc Hds Hacc.
  - now rewrite app_nil_r.
  - apply Forall_cons in Hds as [[s Hs] Hds]. cbn [fold_left].
    replace (done ++ crr :: ds) with ((done ++ [crr]) ++ ds)
      by now rewrite <- app_assoc.
    apply IH; [exact Hds|]. now apply grouped_step with (s := s).
Qed.

(** X17: the groups, when every emotion is a string.  No two groups have
    the same emotion; every diary's emotion has its group; and a group lists
    the diaries that have its emotion, all of them, in the order they came. *)
Theorem groupDiariesByEmotion_groups (diaries : list (gmap string jsvalue)) :
  Forall (fun d => exists s, get d "emotion" = VString s) diaries ->
  NoDup (map emotion (groupDiariesByEmotion diaries)) /\
  Forall (fun g =>
            diaryInfos g =
            map diaryInfo
                (List.filter
                   (fun d => strict_equal (emotion g) (get d "emotion"))
                   diaries))
         (groupDiariesByEmotion diaries) /\
  Forall (fun d => get d "emotion" ∈ map emotion (groupDiariesByEmotion diaries))
         diaries.
Proof.
  intros Hds.
  apply (fold_grouped diaries [] [] Hds).
  split; [constructor|]. split; constructor.
Qed.

Lemma groupDiariesByEmotion_groups_witness :
  groupDiariesByEmotion week =
    [mkEmotionGroup (VString (utf16 "happy"))
       [diaryInfo (diary_of 1 "monday" "happy");
        diaryInfo (diary_of 3 "wednesday" "happy")];
     mkEmotionGroup (VString (utf16 "sad"))
       [diaryInfo (diary_of 2 "tuesday" "sad")]] /\
  NoDup (map emotion (groupDiariesByEmotion week)).
Proof.
  split; [reflexivity|].
  apply (groupDiariesByEmotion_groups week).
  repeat constructor; eexists; reflexivity.
Defined.

(** * The reactions service *)

(** [ReactionsService] has a repository and the diaries service injected;
    it sends its own requests, and the diaries service is one of the parties
    it asks. *)
Module Reactions.

Inductive Event : Type :=
  | FindByDiary (diaryId : Z)
  | FindDiary (user : jsvalue) (diaryId : Z)
  | FindReactionByDiaryAndUserAndReaction (user diary reaction : jsvalue)
  | FindReactionByDiaryAndUser (user diary : jsvalue)
  | SaveReaction (reaction : gmap string jsvalue)
  | RemoveReaction (reaction : gmap string jsvalue).

Definition World : Type := list Event.

Definition IO (A : Type) : Type := World -> Outcome A * World.

Definition ret {A : Type} (a : A) : IO A := fun w => (Ok a, w).

Definition throw {A : Type} (e : Error) : IO A := fun w => (Throw e, w).

Definition bind {A B : Type} (m : IO A) (k : A -> IO B) : IO B :=
  fun w =>
    match m w with
    | (Ok a, w') => k a w'
    | (Throw e, w') => (Throw e, w')
    end.

(** An awaited request. *)
Definition call {A : Type} (e : Event) (answer : World -> Outcome A) : IO A :=
  fun w => (answer w, w ++ [e]).

(** A request whose promise is dropped: it is sent, and what becomes of it
    does not reach the caller. *)
Definition send (e : Event) : IO unit := fun w => (Ok tt, w ++ [e]).

Declare Scope reactions_scope.
Delimit Scope reactions_scope with reactions.
Notation "x <- m ;; k" := (bind m (fun x => k))
  (at level 100, m at next level, right associativity) : reactions_scope.

(** The injected parties.  The diaries service is asked for the diary with
    the user and the id, and with nothing else.  A repository look-up answers
    an entity or [null], here [None]. *)
Record Env : Type := mkEnv {
  reactionsRepository_findByDiary : World -> Z -> Outcome jsvalue;
  diariesService_findDiary : World -> jsvalue -> Z -> Outcome jsvalue;
  reactionsRepository_findReactionByDiaryAndUserAndReaction :
    World -> jsvalue -> jsvalue -> jsvalue ->
    Outcome (option (gmap string jsvalue));
  reactionsRepository_findReactionByDiaryAndUser :
    World -> jsvalue -> jsvalue -> Outcome (option (gmap string jsvalue));
  reactionsRepository_save :
    World -> gmap string jsvalue -> Outcome (gmap string jsvalue)
}.

Section Service.
Variable env : Env.

Local Open Scope reactions_scope.

Definition getAllReaction (diaryId : Z) : IO jsvalue :=
  call (FindByDiary diaryId)
       (fun w => reactionsRepository_findByDiary env w diaryId).

Definition findDiary (user : jsvalue) (diaryId : Z) : IO jsvalue :=
  call (FindDiary user diaryId)
       (fun w => diariesService_findDiary env w user diaryId).

Definition saveReaction (user : jsvalue) (diaryId : Z)
    (reactionRequestDto : gmap string jsvalue) : IO unit :=
  diary <- findDiary user diaryId ;;
  duplicateReaction <-
    call (FindReactionByDiaryAndUserAndReaction
            user diary (get reactionRequestDto "reaction"))
         (fun w =>
            reactionsRepository_findReactionByDiaryAndUserAndReaction
              env w user diary (get reactionRequestDto "reaction")) ;;
  match duplicateReaction with
  | Some _ => throw BadRequestException
  | None =>
      send (SaveReaction
              {[ "user" := user;
                 "diary" := diary;
                 "reaction" := get reactionRequestDto "reaction" ]})
  end.

Definition updateReaction (user : jsvalue) (diaryId : Z)
    (reactionRequestDto : gmap string jsvalue) : IO unit :=
  diary <- findDiary user diaryId ;;
  reaction <-
    call (FindReactionByDiaryAndUser user diary)
         (fun w =>
            reactionsRepository_findReactionByDiaryAndUser env w user diary) ;;
  match reaction with
  | None => throw BadRequestException
  | Some reaction =>
      let reaction :=
        <["reaction" := get reactionRequestDto "reaction"]> reaction in
      _ <- call (SaveReaction reaction)
                (fun w => reactionsRepository_save env w reaction) ;;
      ret tt
  end.

Definition deleteReaction (user : jsvalue) (diaryId : Z)
    (reactionRequestDto : gmap string jsvalue) : IO unit :=
  diary <- findDiary user diaryId ;;
  reaction <-
    call (FindReactionByDiaryAndUserAndReaction
            user diary (get reactionRequestDto "reaction"))
         (fun w =>
            reactionsRepository_findReactionByDiaryAndUserAndReaction
              env w user diary (get reactionRequestDto "reaction")) ;;
  match reaction with
  | None => throw BadRequestException
  | Some reaction => send (RemoveReaction reaction)
  end.
End Service.

(** A repository that has no reaction for anyone and cannot save. *)
Definition empty_and_read_only : Env :=
  mkEnv (fun _ _ => Ok (VArray []))
        (fun _ _ _ => Ok (VObject stored_diary))
        (fun _ _ _ _ => Ok None)
        (fun _ _ _ => Ok None)
        (fun _ _ => Throw NetworkError).

(** A repository that has one reaction, whatever is asked for. *)
Definition liked : gmap string jsvalue :=
  {[ "id" := VNumber 3%float; "reaction" := VString (utf16 "like") ]}.

Definition has_liked : Env :=
  mkEnv (fun _ _ => Ok (VArray []))
        (fun _ _ _ => Ok (VObject stored_diary))
        (fun _ _ _ _ => Ok (Some liked))
        (fun _ _ _ => Ok (Some liked))
        (fun _ r => Ok r).

Definition love_dto : gmap string jsvalue :=
  {[ "reaction" := VString (utf16 "love") ]}.

(** The diaries service refuses every user. *)
Definition forbidden : Env :=
  mkEnv (fun _ _ => Ok (VArray []))
        (fun _ _ _ => Throw ForbiddenException)
        (fun _ _ _ _ => Ok (Some liked))
        (fun _ _ _ => Ok (Some liked))
        (fun _ r => Ok r).

End Reactions.

Section ReactionsProperties.
Import Reactions.

(** X18: a reaction is saved once.  When the repository has the reaction
    of this user to this diary already, [saveReaction] throws a
    BadRequestException and sends no save; when it has none, the reaction is
    sent to be saved with the user and the diary, and [saveReaction] returns
    without waiting for the repository: a save that fails is not reported. *)
Theorem saveReaction_once (env : Env) (user : jsvalue) (diaryId : Z)
    (dto : gmap string jsvalue) (w : World) (diary : jsvalue) :
  diariesService_findDiary env w user diaryId = Ok diary ->
  let w1 := w ++ [FindDiary user diaryId] in
  let w2 :=
    w1 ++ [FindReactionByDiaryAndUserAndReaction user diary (get dto "reaction")] in
  (forall found,
     reactionsRepository_findReactionByDiaryAndUserAndReaction
       env w1 user diary (get dto "reaction") = Ok (Some found) ->
     saveReaction env user diaryId dto w = (Throw BadRequestException, w2)) /\
  (reactionsRepository_findReactionByDiaryAndUserAndReaction
     env w1 user diary (get dto "reaction") = Ok None ->
   saveReaction env user diaryId dto w =
   (Ok tt,
    w2 ++ [SaveReaction {[ "user" := user;
                           "diary" := diary;
                           "reaction" := get dto "reaction" ]}])).
Proof.
  intros Hdiary w1 w2.
  unfold saveReaction, findDiary, bind, call. rewrite Hdiary. fold w1.
  split.
  - now intros found ->.
  - now intros ->.
Qed.

Lemma saveReaction_once_witness :
  saveReaction empty_and_read_only author 1 love_dto [] =
  (Ok tt,
   [FindDiary author 1;
    FindReactionByDiaryAndUserAndReaction
      author (VObject stored_diary) (VString (utf16 "love"));
    SaveReaction {[ "user" := author;
                    "diary" := VObject stored_diary;
                    "reaction" := VString (utf16 "love") ]}]) /\
  saveReaction has_liked author 1 love_dto [] =
  (Throw BadRequestException,
   [FindDiary author 1;
    FindReactionByDiaryAndUserAndReaction
      author (VObject stored_diary) (VString (utf16 "love"))]).
Proof.
  split.
  - destruct (saveReaction_once empty_and_read_only author 1 love_dto []
                (VObject stored_diary) eq_refl) as [_ Hnone].
    exact (Hnone eq_refl).
  - destruct (saveReaction_once has_liked author 1 love_dto []
                (VObject stored_diary) eq_refl) as [Hsome _].
    exact (Hsome liked eq_refl).
Defined.

(** X19: a reaction is changed only where there is one.  When the
    repository has no reaction of this user to this diary, [updateReaction]
    throws a BadRequestException and saves nothing; when it has one, that
    reaction is saved with the new value under [reaction] and its other
    properties as they were, and a save that fails is thrown on. *)
Theorem updateReaction_existing (env : Env) (user : jsvalue) (diaryId : Z)
    (dto : gmap string jsvalue) (w : World) (diary : jsvalue) :
  diariesService_findDiary env w user diaryId = Ok diary ->
  let w1 := w ++ [FindDiary user diaryId] in
  let w2 := w1 ++ [FindReactionByDiaryAndUser user diary] in
  (reactionsRepository_findReactionByDiaryAndUser env w1 user diary = Ok None ->
   updateReaction env user diaryId dto w = (Throw BadRequestException, w2)) /\
  (forall found,
     reactionsRepository_findReactionByDiaryAndUser env w1 user diary
       = Ok (Some found) ->
     let changed := <["reaction" := get dto "reaction"]> found in
     updateReaction env user diaryId dto w =
     (match reactionsRepository_save env w2 changed with
      | Ok _ => Ok tt
      | Throw e => Throw e
      end,
      w2 ++ [SaveReaction changed]) /\
     changed !! "reaction" = Some (get dto "reaction") /\
     (forall key, key <> "reaction" -> changed !! key = found !! key)).
Proof.
  intros Hdiary w1 w2.
  unfold updateReaction, findDiary, bind, call, ret, throw.
  rewrite Hdiary. fold w1. split.
  - now intros ->.
  - intros found ->. cbv zeta. fold w2. split; [|split].
    + now destruct (reactionsRepository_save env w2 _).
    + apply lookup_insert_eq.
    + intros key Hkey. now apply lookup_insert_ne.
Qed.

Lemma updateReaction_existing_witness :
  updateReaction has_liked author 1 love_dto [] =
  (Ok tt,
   [FindDiary author 1;
    FindReactionByDiaryAndUser author (VObject stored_diary);
    SaveReaction {[ "id" := VNumber 3%float;
                    "reaction" := VString (utf16 "love") ]}]) /\
  updateReaction empty_and_read_only author 1 love_dto [] =
  (Throw BadRequestException,
   [FindDiary author 1;
    FindReactionByDiaryAndUser author (VObject stored_diary)]).
Proof.
  split.
  - destruct (updateReaction_existing has_liked author 1 love_dto []
                (VObject stored_diary) eq_refl) as [_ Hsome].
    destruct (Hsome liked eq_refl) as [Hrun _]. exact Hrun.
  - destruct (updateReaction_existing empty_and_read_only author 1 love_dto []
                (VObject stored_diary) eq_refl) as [Hnone _].
    exact (Hnone eq_refl).
Defined.

(** X20: a reaction is removed only where there is one.  When the
    repository has no such reaction of this user to this diary,
    [deleteReaction] throws a BadRequestException and removes nothing; when
    it has one, that very reaction is sent to be removed, and
    [deleteReaction] returns without waiting. *)
Theorem deleteReaction_existing (env : Env) (user : jsvalue) (diaryId : Z)
    (dto : gmap string jsvalue) (w : World) (diary : jsvalue) :
  diariesService_findDiary env w user diaryId = Ok diary ->
  let w1 := w ++ [FindDiary user diaryId] in
  let w2 :=
    w1 ++ [FindReactionByDiaryAndUserAndReaction user diary (get dto "reaction")] in
  (reactionsRepository_findReactionByDiaryAndUserAndReaction
     env w1 user diary (get dto "reaction") = Ok None ->
   deleteReaction env user diaryId dto w = (Throw BadRequestException, w2)) /\
  (forall found,
     reactionsRepository_findReactionByDiaryAndUserAndReaction
       env w1 user diary (get dto "reaction") = Ok (Some found) ->
     deleteReaction env user diaryId dto w
       = (Ok tt, w2 ++ [RemoveReaction found])).
Proof.
  intros Hdiary w1 w2.
  unfold deleteReaction, findDiary, bind, call. rewrite Hdiary. fold w1.
  split.
  - now intros ->.
  - now intros found ->.
Qed.

Lemma deleteReaction_existing_witness :
  deleteReaction has_liked author 1 love_dto [] =
  (Ok tt,
   [FindDiary author 1;
    FindReactionByDiaryAndUserAndReaction
      author (VObject stored_diary) (VString (utf16 "love"));
    RemoveReaction liked]).
Proof.
  destruct (deleteReaction_existing has_liked author 1 love_dto []
              (VObject stored_diary) eq_refl) as [_ Hsome].
  exact (Hsome liked eq_refl).
Defined.

(** X21: the diary comes first.  When the diaries service does not hand
    the diary over (it is not there, or the user may not have it), each of
    [saveReaction], [updateReaction] and [deleteReaction] throws what the
    diaries service threw, and the repository of reactions is neither asked
    nor changed. *)
Theorem reactions_need_the_diary (env : Env) (user : jsvalue) (diaryId : Z)
    (dto : gmap string jsvalue) (w : World) (e : Error) :
  diariesService_findDiary env w user diaryId = Throw e ->
  saveReaction env user diaryId dto w = (Throw e, w ++ [FindDiary user diaryId]) /\
  updateReaction env user diaryId dto w = (Throw e, w ++ [FindDiary user diaryId]) /\
  deleteReaction env user diaryId dto w = (Throw e, w ++ [FindDiary user diaryId]).
Proof.
  intros Hdiary.
  unfold saveReaction, updateReaction, deleteReaction, findDiary, bind, call.
  now rewrite Hdiary.
Qed.

Lemma reactions_need_the_diary_witness :
  saveReaction forbidden reader 1 love_dto []
    = (Throw ForbiddenException, [FindDiary reader 1]) /\
  updateReaction forbidden reader 1 love_dto []
    = (Throw ForbiddenException, [FindDiary reader 1]) /\
  deleteReaction forbidden reader 1 love_dto []
    = (Throw ForbiddenException, [FindDiary reader 1]).
Proof.
  exact (reactions_need_the_diary forbidden reader 1 love_dto []
           ForbiddenException eq_refl).
Defined.

End ReactionsProperties.
